(** * SimpliSafe integration: binary sensors and cameras

    A shallow embedding of
    [homeassistant/components/simplisafe/binary_sensor.py] and
    [homeassistant/components/simplisafe/camera.py], with the properties of
    the transient camera sensors, of the still-image and stream retrieval and
    of the two entity setup functions. *)

From Stdlib Require Import ZArith.
From stdpp Require Import base option list strings gmap.

Open Scope string_scope.
Open Scope list_scope.

(** ** Python runtime: exceptions and the state-and-error monad

    A Python call either returns a value or raises; either way the mutations
    it made before stay in place.  [M S A] is a computation over a store [S]. *)

Inductive exn : Type :=
  | NameError (name : string)
  | AttributeError (name : string)
  | TypeError (msg : string)
  | CancelledError
  | Exception (msg : string).

Inductive result (A : Type) : Type :=
  | Return (a : A)
  | Raise (e : exn).
Arguments Return {A} a.
Arguments Raise {A} e.

(** An expression that reads the store but does not change it gives a
    [result]. *)
Global Instance result_ret : MRet result := fun A (a : A) => Return a.

Global Instance result_bind : MBind result :=
  fun A B (f : A -> result B) (r : result A) =>
    match r with
    | Return a => f a
    | Raise e => Raise e
    end.

Definition M (S A : Type) : Type := S -> result A * S.

Global Instance M_ret {S} : MRet (M S) :=
  fun A (a : A) (s : S) => (Return a, s).

Global Instance M_bind {S} : MBind (M S) :=
  fun A B (f : A -> M S B) (m : M S A) (s : S) =>
    match m s with
    | (Return a, s') => f a s'
    | (Raise e, s') => (Raise e, s')
    end.

Definition raise {S A} (e : exn) : M S A := fun s => (Raise e, s).
Definition lift {S A} (r : result A) : M S A := fun s => (r, s).
Definition gets {S A} (f : S -> A) : M S A := fun s => (Return (f s), s).
Definition modify {S} (f : S -> S) : M S unit := fun s => (Return tt, f s).

(** [try: body finally: fin]: [fin] runs however [body] ends; an exception of
    [fin] replaces the outcome of [body]. *)
Definition try_finally {S A} (body : M S A) (fin : M S unit) : M S A :=
  fun s =>
    let (r, s1) := body s in
    match fin s1 with
    | (Return _, s2) => (r, s2)
    | (Raise e, s2) => (Raise e, s2)
    end.

(** *** Name resolution

    A name used in a function body that is not a local is looked up in the
    globals of the defining module, then in the builtins; a name found in
    neither raises [NameError] at the moment it is evaluated.  The objects
    a lookup can give are kept abstract, but for the two the transient
    sensors would need. *)

Inductive PyObject : Type :=
  | PyOpaque                  (* a class, module, function or constant *)
  | PyInt (z : Z)
  | PyCallLater.              (* homeassistant.helpers.event.async_call_later *)

Definition builtins : list string :=
  [ "abs"; "aiter"; "all"; "anext"; "any"; "ascii"; "bin"; "bool";
    "breakpoint"; "bytearray"; "bytes"; "callable"; "chr"; "classmethod";
    "compile"; "complex"; "copyright"; "credits"; "delattr"; "dict"; "dir";
    "divmod"; "enumerate"; "eval"; "exec"; "exit"; "filter"; "float";
    "format"; "frozenset"; "getattr"; "globals"; "hasattr"; "hash"; "help";
    "hex"; "id"; "input"; "int"; "isinstance"; "issubclass"; "iter"; "len";
    "license"; "list"; "locals"; "map"; "max"; "memoryview"; "min"; "next";
    "object"; "oct"; "open"; "ord"; "pow"; "print"; "property"; "quit";
    "range"; "repr"; "reversed"; "round"; "set"; "setattr"; "slice";
    "sorted"; "staticmethod"; "str"; "sum"; "super"; "tuple"; "type"; "vars";
    "zip"; "__import__"; "__build_class__"; "__debug__"; "__doc__";
    "__loader__"; "__name__"; "__package__"; "__spec__";
    "None"; "True"; "False"; "Ellipsis"; "NotImplemented";
    "ArithmeticError"; "AssertionError"; "AttributeError"; "BaseException";
    "BlockingIOError"; "BrokenPipeError"; "BufferError"; "BytesWarning";
    "ChildProcessError"; "ConnectionAbortedError"; "ConnectionError";
    "ConnectionRefusedError"; "ConnectionResetError"; "DeprecationWarning";
    "EOFError"; "EncodingWarning"; "EnvironmentError"; "Exception";
    "FileExistsError"; "FileNotFoundError"; "FloatingPointError";
    "FutureWarning"; "GeneratorExit"; "IOError"; "ImportError";
    "ImportWarning"; "IndentationError"; "IndexError"; "InterruptedError";
    "IsADirectoryError"; "KeyError"; "KeyboardInterrupt"; "LookupError";
    "MemoryError"; "ModuleNotFoundError"; "NameError"; "NotADirectoryError";
    "NotImplementedError"; "OSError"; "OverflowError";
    "PendingDeprecationWarning"; "PermissionError"; "ProcessLookupError";
    "RecursionError"; "ReferenceError"; "ResourceWarning"; "RuntimeError";
    "RuntimeWarning"; "StopAsyncIteration"; "StopIteration"; "SyntaxError";
    "SyntaxWarning"; "SystemError"; "SystemExit"; "TabError"; "TimeoutError";
    "TypeError"; "UnboundLocalError"; "UnicodeDecodeError";
    "UnicodeEncodeError"; "UnicodeError"; "UnicodeTranslateError";
    "UnicodeWarning"; "UserWarning"; "ValueError"; "Warning";
    "ZeroDivisionError" ].

Definition load_global {S} (globals : gmap string PyObject) (name : string)
  : M S PyObject :=
  match globals !! name with
  | Some v => mret v
  | None =>
      if decide (name ∈ builtins) then mret PyOpaque
      else raise (NameError name)
  end.

(** The double quote character of the Python format strings. *)
Definition dquote : string := String (Ascii.ascii_of_nat 34) EmptyString.

(** ** simplipy: the vendor records the module reads *)

Module simplipy.

Module DeviceTypes.
Inductive t : Type :=
  | CARBON_MONOXIDE | ENTRY | GLASS_BREAK | KEYPAD | LEAK | LOCK_KEYPAD
  | MOTION | SIREN | SMOKE | TEMPERATURE
  | OTHER (code : Z).            (* the members the module never names *)

Global Instance eq_dec : EqDecision t.
Proof. solve_decision. Defined.
End DeviceTypes.

Module CameraTypes.
Inductive t : Type := CAMERA | DOORBELL | OUTDOOR_CAMERA | UNKNOWN.

Global Instance eq_dec : EqDecision t.
Proof. solve_decision. Defined.
End CameraTypes.

Module SystemStates.
Inductive t : Type :=
  | ALARM | ALARM_COUNT | AWAY | AWAY_COUNT | ENTRY_DELAY | ERROR
  | EXIT_DELAY | HOME | HOME_COUNT | OFF | TEST | UNKNOWN.

Global Instance eq_dec : EqDecision t.
Proof. solve_decision. Defined.

(** The members by name.  The library that has the upper-case members
    [DeviceTypes.CARBON_MONOXIDE] and [CameraTypes.DOORBELL] which
    binary_sensor.py names has the members of this enum in upper case too. *)
Definition __members__ : gmap string t :=
  list_to_map
    [ ("ALARM", ALARM); ("ALARM_COUNT", ALARM_COUNT); ("AWAY", AWAY);
      ("AWAY_COUNT", AWAY_COUNT); ("ENTRY_DELAY", ENTRY_DELAY);
      ("ERROR", ERROR); ("EXIT_DELAY", EXIT_DELAY); ("HOME", HOME);
      ("HOME_COUNT", HOME_COUNT); ("OFF", OFF); ("TEST", TEST);
      ("UNKNOWN", UNKNOWN) ].

(** [SystemStates.<name>]: attribute access on the enum class gives the
    member of that name and raises [AttributeError] when there is none. *)
Definition getattr (members : gmap string t) (name : string) : result t :=
  match members !! name with
  | Some member => Return member
  | None => Raise (AttributeError name)
  end.
End SystemStates.

Record SensorV3 : Type := {
  sensor_serial : string;
  type : DeviceTypes.t;
  triggered : bool;
  low_battery : bool }.

Record Camera : Type := {
  camera_serial : string;
  camera_type : CameraTypes.t;
  status : string;
  subscription_enabled : bool;
  shutter_open_when_off : bool;
  shutter_open_when_home : bool;
  shutter_open_when_away : bool;
  video_url : string }.            (* what camera.video_url() returns *)

Record System : Type := {
  version : Z;
  system_id : Z;
  state : SystemStates.t;
  sensors : list SensorV3;         (* system.sensors.values() *)
  cameras : list Camera }.         (* system.cameras.values() *)

Inductive EventType : Type :=
  | EVENT_DOORBELL_DETECTED
  | EVENT_CAMERA_MOTION_DETECTED
  | EVENT_OTHER (name : string).

Record WebsocketEvent : Type := {
  event_type : EventType;
  event_system_id : Z;
  info : string }.

End simplipy.

(** ** The integration package: [from . import SimpliSafe], [from .const import LOGGER] *)

Record SimpliSafe : Type := {
  access_token : string;                 (* simplisafe._api.access_token *)
  systems : list simplipy.System }.      (* simplisafe.systems.values() *)

Module const.

Inductive LogRecord : Type :=
  | info (fmt : string) (arg : Z)
  | warn (msg : string)
  | critical (event : simplipy.WebsocketEvent).

Definition skip_message : string := "Skipping sensor setup for V2 system: %s".

End const.

(** ** binary_sensor.py *)

Module binary_sensor.
Import simplipy.

Module BinarySensorDeviceClass.
Inductive t : Type :=
  | BATTERY | DOOR | GAS | MOISTURE | MOTION | OCCUPANCY | SAFETY | SMOKE.
End BinarySensorDeviceClass.

Definition SUPPORTED_BATTERY_SENSOR_TYPES : list DeviceTypes.t :=
  [ DeviceTypes.CARBON_MONOXIDE; DeviceTypes.ENTRY; DeviceTypes.GLASS_BREAK;
    DeviceTypes.KEYPAD; DeviceTypes.LEAK; DeviceTypes.LOCK_KEYPAD;
    DeviceTypes.MOTION; DeviceTypes.SIREN; DeviceTypes.SMOKE;
    DeviceTypes.TEMPERATURE ].

Definition TRIGGERED_SENSOR_TYPES
  : list (DeviceTypes.t * BinarySensorDeviceClass.t) :=
  [ (DeviceTypes.CARBON_MONOXIDE, BinarySensorDeviceClass.GAS);
    (DeviceTypes.ENTRY, BinarySensorDeviceClass.DOOR);
    (DeviceTypes.GLASS_BREAK, BinarySensorDeviceClass.SAFETY);
    (DeviceTypes.LEAK, BinarySensorDeviceClass.MOISTURE);
    (DeviceTypes.MOTION, BinarySensorDeviceClass.MOTION);
    (DeviceTypes.SIREN, BinarySensorDeviceClass.SAFETY);
    (DeviceTypes.SMOKE, BinarySensorDeviceClass.SMOKE) ].

(** [d[k]] guarded by [k in d]. *)
Fixpoint dict_get {V} (d : list (DeviceTypes.t * V)) (k : DeviceTypes.t)
  : option V :=
  match d with
  | [] => None
  | (k', v) :: d' => if decide (k' = k) then Some v else dict_get d' k
  end.

(** The entity objects the setup function constructs; each keeps the
    references its constructor was given. *)
Inductive Entity : Type :=
  | TriggeredBinarySensor (simplisafe : SimpliSafe) (system : System)
      (sensor : SensorV3) (device_class : BinarySensorDeviceClass.t)
  | BatteryBinarySensor (simplisafe : SimpliSafe) (system : System)
      (sensor : SensorV3)
  | CameraMotionBinarySensor (simplisafe : SimpliSafe) (system : System)
      (camera : Camera)
  | CameraDoorbellBinarySensor (simplisafe : SimpliSafe) (system : System)
      (camera : Camera).

Definition entity_system (e : Entity) : System :=
  match e with
  | TriggeredBinarySensor _ system _ _ => system
  | BatteryBinarySensor _ system _ => system
  | CameraMotionBinarySensor _ system _ => system
  | CameraDoorbellBinarySensor _ system _ => system
  end.

(** The body of [for sensor in system.sensors.values()]. *)
Definition add_sensor (simplisafe : SimpliSafe) (system : System)
    (acc : list Entity) (sensor : SensorV3) : list Entity :=
  let acc :=
    match dict_get TRIGGERED_SENSOR_TYPES (type sensor) with
    | Some device_class =>
        acc ++ [TriggeredBinarySensor simplisafe system sensor device_class]
    | None => acc
    end in
  if decide (type sensor ∈ SUPPORTED_BATTERY_SENSOR_TYPES)
  then acc ++ [BatteryBinarySensor simplisafe system sensor]
  else acc.

(** The body of [for cam in system.cameras.values()]. *)
Definition add_camera (simplisafe : SimpliSafe) (system : System)
    (acc : list Entity) (cam : Camera) : list Entity :=
  let acc := acc ++ [CameraMotionBinarySensor simplisafe system cam] in
  if decide (camera_type cam = CameraTypes.DOORBELL)
  then acc ++ [CameraDoorbellBinarySensor simplisafe system cam]
  else acc.

(** The body of [for system in simplisafe.systems.values()], over the
    pair of the [sensors] list and the records written to [LOGGER]. *)
Definition setup_system (simplisafe : SimpliSafe)
    (acc : list Entity * list const.LogRecord) (system : System)
  : list Entity * list const.LogRecord :=
  let '(sensors_acc, log) := acc in
  if decide (version system = 2%Z)
  then (sensors_acc, log ++ [const.info const.skip_message (system_id system)])
  else
    let sensors_acc :=
      foldl (add_sensor simplisafe system) sensors_acc (sensors system) in
    let sensors_acc :=
      foldl (add_camera simplisafe system) sensors_acc (cameras system) in
    (sensors_acc, log).

(** [async_setup_entry], from [simplisafe = hass.data[DOMAIN][entry.entry_id]]
    on: the list handed to [async_add_entities] and the log. *)
Definition async_setup_entry (simplisafe : SimpliSafe)
  : list Entity * list const.LogRecord :=
  foldl (setup_system simplisafe) ([], []) (systems simplisafe).

(** *** The transient camera sensors

    The store a camera sensor's methods run in: the entity's own attribute,
    and the parts of the host they touch (the clock and the delayed
    callbacks of the event loop, the states written to the state machine,
    the logger). *)

Inductive TransientClass : Type := DoorbellSensor | MotionSensor.

(** The closure [clear_delay_listener] made by one call of the handler; it
    captures [self]. *)
Inductive Callback : Type := clear_delay_listener_of (self : TransientClass).

Record Timer : Type := { due : Z; action : Callback }.

Record World : Type := {
  _attr_is_on : bool;
  clock : Z;
  timers : list Timer;
  written : list bool;
  log : list const.LogRecord }.

Definition set_attr_is_on (b : bool) (w : World) : World :=
  {| _attr_is_on := b; clock := clock w; timers := timers w;
     written := written w; log := log w |}.

Definition set_timers (ts : list Timer) (w : World) : World :=
  {| _attr_is_on := _attr_is_on w; clock := clock w; timers := ts;
     written := written w; log := log w |}.

Definition set_clock (t : Z) (w : World) : World :=
  {| _attr_is_on := _attr_is_on w; clock := t; timers := timers w;
     written := written w; log := log w |}.

Definition LOGGER_critical (event : WebsocketEvent) : M World unit :=
  modify (fun w =>
    {| _attr_is_on := _attr_is_on w; clock := clock w; timers := timers w;
       written := written w; log := log w ++ [const.critical event] |}).

(** Modelled from the spec: the state publisher [async_write_ha_state] of
    the host's entity base class, which is not among the sources; it
    notifies the host of the entity's current state. *)
Definition async_write_ha_state : M World unit :=
  modify (fun w =>
    {| _attr_is_on := _attr_is_on w; clock := clock w; timers := timers w;
       written := written w ++ [_attr_is_on w]; log := log w |}).

(** Modelled from the spec: the host's delayed-callback primitive
    [async_call_later(hass, delay, action)], which is not among the
    sources: it arranges for [action] to run once [delay] has passed and
    touches nothing else. *)
Definition async_call_later (delay : PyObject) (cb : Callback)
  : M World unit :=
  match delay with
  | PyInt d =>
      modify (fun w =>
        set_timers (timers w ++ [{| due := clock w + d; action := cb |}]) w)
  | _ => raise (TypeError "unsupported type for timedelta seconds component")
  end.

(** A call [f(self.hass, delay, cb)] of whatever object [f] is. *)
Definition call (f delay : PyObject) (cb : Callback) : M World unit :=
  match f with
  | PyCallLater => async_call_later delay cb
  | _ => raise (TypeError "object is not callable")
  end.

(** The names bound at module level: the attributes every module has,
    lines 2 to 20 (imports), 22 and 35 (the two tables), and the [def] and
    [class] statements. *)
Definition module_names : list string :=
  [ "__name__"; "__doc__"; "__package__"; "__loader__"; "__spec__";
    "__file__"; "__cached__"; "__builtins__";
    "annotations"; "DeviceTypes"; "Camera"; "CameraTypes"; "SensorV3";
    "SystemV3"; "EVENT_DOORBELL_DETECTED"; "EVENT_CAMERA_MOTION_DETECTED";
    "BinarySensorDeviceClass"; "BinarySensorEntity"; "ConfigEntry";
    "HomeAssistant"; "callback"; "EntityCategory"; "AddEntitiesCallback";
    "SimpliSafe"; "SimpliSafeEntity"; "DOMAIN"; "LOGGER";
    "SUPPORTED_BATTERY_SENSOR_TYPES"; "TRIGGERED_SENSOR_TYPES";
    "async_setup_entry"; "TriggeredBinarySensor"; "BatteryBinarySensor";
    "CameraDoorbellBinarySensor"; "CameraMotionBinarySensor" ].

Definition module_globals : gmap string PyObject :=
  list_to_map ((fun name => (name, PyOpaque)) <$> module_names).

Module CameraDoorbellBinarySensor.

(** [__init__]: the attributes set after the base constructor, given the
    text of [super().unique_id]. *)
Definition _attr_name : string := "Doorbell".
Definition _attr_unique_id (super_unique_id : string) : string :=
  super_unique_id +:+ "-doorbell".

Definition async_update_from_rest_api : M World unit := mret tt.

Definition clear_delay_listener : M World unit :=
  modify (set_attr_is_on false);;
  async_write_ha_state.

Definition async_update_from_websocket_event
    (globals : gmap string PyObject) (event : WebsocketEvent)
  : M World unit :=
  load_global globals "LOGGER";;
  LOGGER_critical event;;
  modify (set_attr_is_on true);;
  load_global globals "callback";;     (* decorates the nested def *)
  f ← load_global globals "async_call_later";
  delay ← load_global globals "MOTION_SENSOR_TRIGGER_CLEAR";
  call f delay (clear_delay_listener_of DoorbellSensor).

End CameraDoorbellBinarySensor.

Module CameraMotionBinarySensor.

Definition _attr_name : string := "Motion".
Definition _attr_unique_id (super_unique_id : string) : string :=
  super_unique_id +:+ "-motion".

Definition async_update_from_rest_api : M World unit := mret tt.

Definition clear_delay_listener : M World unit :=
  modify (set_attr_is_on false);;
  async_write_ha_state.

Definition async_update_from_websocket_event
    (globals : gmap string PyObject) (event : WebsocketEvent)
  : M World unit :=
  load_global globals "LOGGER";;
  LOGGER_critical event;;
  modify (set_attr_is_on true);;
  load_global globals "callback";;     (* decorates the nested def *)
  f ← load_global globals "async_call_later";
  delay ← load_global globals "MOTION_SENSOR_TRIGGER_CLEAR";
  call f delay (clear_delay_listener_of MotionSensor).

End CameraMotionBinarySensor.

(** Method dispatch on the class of [self]. *)
Definition async_update_from_rest_api (cls : TransientClass)
  : M World unit :=
  match cls with
  | DoorbellSensor => CameraDoorbellBinarySensor.async_update_from_rest_api
  | MotionSensor => CameraMotionBinarySensor.async_update_from_rest_api
  end.

Definition async_update_from_websocket_event (cls : TransientClass)
  : gmap string PyObject -> WebsocketEvent -> M World unit :=
  match cls with
  | DoorbellSensor =>
      CameraDoorbellBinarySensor.async_update_from_websocket_event
  | MotionSensor =>
      CameraMotionBinarySensor.async_update_from_websocket_event
  end.

Definition run_callback (cb : Callback) : M World unit :=
  match cb with
  | clear_delay_listener_of DoorbellSensor =>
      CameraDoorbellBinarySensor.clear_delay_listener
  | clear_delay_listener_of MotionSensor =>
      CameraMotionBinarySensor.clear_delay_listener
  end.

(** *** The event loop around one sensor *)

(** What the loop can do next: deliver a push event or a REST refresh to the
    entity's hook, let [d] seconds pass, or run the [i]-th pending callback. *)
Inductive Action : Type :=
  | PushEvent (event : WebsocketEvent)
  | RestRefresh
  | Advance (d : N)
  | Fire (i : nat).

(** Modelled from the spec: the host's single-threaded event loop, which is
    not among the sources.  Hooks and callbacks run one at a time; a delayed
    callback runs once, at or after its due time, and leaves the pending
    ones when it does.  An exception escaping a hook ends that hook only:
    what the hook changed before stays changed. *)
Definition step (globals : gmap string PyObject) (cls : TransientClass)
    (a : Action) (w : World) : World :=
  match a with
  | PushEvent event =>
      (async_update_from_websocket_event cls globals event w).2
  | RestRefresh => (async_update_from_rest_api cls w).2
  | Advance d => set_clock (clock w + Z.of_N d) w
  | Fire i =>
      match timers w !! i with
      | Some t =>
          if decide (due t <= clock w)%Z
          then (run_callback (action t) (set_timers (delete i (timers w)) w)).2
          else w
      | None => w
      end
  end.

Definition run (globals : gmap string PyObject) (cls : TransientClass)
    (tr : list Action) (w : World) : World :=
  foldl (fun w a => step globals cls a w) w tr.

(** A sensor as its constructor leaves it ([_attr_is_on = False]) in a loop
    with nothing scheduled. *)
Definition initial (t0 : Z) : World :=
  {| _attr_is_on := false; clock := t0; timers := []; written := [];
     log := [] |}.

(** *** The passthrough sensors

    A triggered or battery sensor keeps a reference to the vendor's device
    record, which the vendor client updates in place on each poll, and its
    own [_attr_is_on], which only the REST hook assigns.  A store holds
    both: the record behind [self._device] as it is now, and the
    attribute ([None] while the hook has not run). *)

Inductive DeviceAction : Type :=
  | Poll (device : SensorV3)      (* the client rewrites the shared record *)
  | Refresh.                      (* the host calls the REST hook *)

Module TriggeredBinarySensor.

Record t : Type := {
  _device : SensorV3;
  _attr_device_class : BinarySensorDeviceClass.t;
  _attr_is_on : option bool }.

Definition async_update_from_rest_api (self : t) : t :=
  {| _device := _device self;
     _attr_device_class := _attr_device_class self;
     _attr_is_on := Some (triggered (_device self)) |}.

Definition step (self : t) (a : DeviceAction) : t :=
  match a with
  | Poll device =>
      {| _device := device;
         _attr_device_class := _attr_device_class self;
         _attr_is_on := _attr_is_on self |}
  | Refresh => async_update_from_rest_api self
  end.

Definition run (tr : list DeviceAction) (self : t) : t := foldl step self tr.

End TriggeredBinarySensor.

Module BatteryBinarySensor.

Definition _attr_name : string := "Battery".
Definition _attr_unique_id (super_unique_id : string) : string :=
  super_unique_id +:+ "-battery".

Record t : Type := {
  _device : SensorV3;
  _attr_is_on : option bool }.

Definition async_update_from_rest_api (self : t) : t :=
  {| _device := _device self;
     _attr_is_on := Some (low_battery (_device self)) |}.

Definition step (self : t) (a : DeviceAction) : t :=
  match a with
  | Poll device => {| _device := device; _attr_is_on := _attr_is_on self |}
  | Refresh => async_update_from_rest_api self
  end.

Definition run (tr : list DeviceAction) (self : t) : t := foldl step self tr.

End BatteryBinarySensor.

End binary_sensor.

(** ** camera.py *)

Module camera.
Import simplipy.

Definition bytes : Type := list Byte.byte.

(** [hass.data[DATA_FFMPEG]]: the host's FFmpeg manager handle. *)
Record FFmpegManager : Type := {
  binary : string;
  ffmpeg_stream_content_type : string }.

Record SimpliSafeCamera : Type := {
  _simplisafe : SimpliSafe;
  _system : System;
  _device : Camera;
  _ffmpeg : FFmpegManager;
  _last_image : option bytes;         (* [None] until a frame was grabbed *)
  _is_online : bool;
  _is_subscribed : bool }.

Definition __init__ (simplisafe : SimpliSafe) (system : System)
    (ffmpeg : FFmpegManager) (camera : Camera) : SimpliSafeCamera :=
  {| _simplisafe := simplisafe;
     _system := system;
     _device := camera;
     _ffmpeg := ffmpeg;
     _last_image := None;
     _is_online := bool_decide (status camera = "online");
     _is_subscribed := subscription_enabled camera |}.

(** The body of [for system in simplisafe.systems.values()]. *)
Definition setup_system (simplisafe : SimpliSafe) (ffmpeg : FFmpegManager)
    (acc : list SimpliSafeCamera * list const.LogRecord) (system : System)
  : list SimpliSafeCamera * list const.LogRecord :=
  let '(cameras_acc, log) := acc in
  if decide (version system = 2%Z)
  then (cameras_acc, log ++ [const.info const.skip_message (system_id system)])
  else
    (foldl (fun acc cam => acc ++ [__init__ simplisafe system ffmpeg cam])
       cameras_acc (cameras system),
     log).

(** [async_setup_entry], given [hass.data[DOMAIN][entry.entry_id]] and
    [hass.data[DATA_FFMPEG]]: the list handed to [async_add_entities] and
    the log. *)
Definition async_setup_entry (simplisafe : SimpliSafe)
    (ffmpeg : FFmpegManager)
  : list SimpliSafeCamera * list const.LogRecord :=
  foldl (setup_system simplisafe ffmpeg) ([], []) (systems simplisafe).

Definition is_on (self : SimpliSafeCamera) : bool :=
  _is_online self && _is_subscribed self.

Definition async_update_from_rest_api (self : SimpliSafeCamera)
  : SimpliSafeCamera :=
  {| _simplisafe := _simplisafe self;
     _system := _system self;
     _device := _device self;
     _ffmpeg := _ffmpeg self;
     _last_image := _last_image self;
     _is_online := bool_decide (status (_device self) = "online");
     _is_subscribed := subscription_enabled (_device self) |}.

Definition auth_headers (self : SimpliSafeCamera) : string :=
  "-headers " +:+ dquote +:+ "Authorization: Bearer "
    +:+ access_token (_simplisafe self) +:+ dquote.

(** The property builds a [str]; as a Python value it is never [None]. *)
Definition _video_url (self : SimpliSafeCamera) : option string :=
  let url := video_url (_device self) in
  Some ("-re " +:+ auth_headers self +:+ " -i " +:+ dquote +:+ url
          +:+ dquote).

(** [members] is what the names after [SystemStates.] resolve to; each
    comparison evaluates its right operand when it is reached. *)
Definition is_shutter_open (members : gmap string SystemStates.t)
    (self : SimpliSafeCamera) : result bool :=
  off ← SystemStates.getattr members "off";
  if decide (state (_system self) = off)
  then mret (shutter_open_when_off (_device self))
  else
    home ← SystemStates.getattr members "home";
    if decide (state (_system self) = home)
    then mret (shutter_open_when_home (_device self))
    else
      away ← SystemStates.getattr members "away";
      if decide (state (_system self) = away)
      then mret (shutter_open_when_away (_device self))
      else mret true.

Definition stream_source (self : SimpliSafeCamera) : option string :=
  _video_url self.

(** *** Calls that leave the module

    The frame-grab utility, the stream object and the HTTP proxy belong to
    the host and to haffmpeg.  A method runs in a store that records every
    such call in order; what an awaited call gives back (a value, or an
    exception, cancellation included) is supplied from outside. *)

Inductive Call : Type :=
  | get_image (binary input_source : string)
  | open_camera (binary input_source : string)
  | get_reader
  | async_aiohttp_proxy_stream (reader : nat) (content_type : string)
  | close.

Global Instance Call_eq_dec : EqDecision Call.
Proof. solve_decision. Defined.

Record Store : Type := {
  self : SimpliSafeCamera;
  calls : list Call;
  log : list const.LogRecord }.

Record Outcomes : Type := {
  get_image_outcome : result (option bytes);
  open_camera_outcome : result bool;
  get_reader_outcome : result nat;
  proxy_outcome : result string;
  close_outcome : result unit }.

Definition await {A} (c : Call) (outcome : result A) : M Store A :=
  fun s =>
    (outcome, {| self := self s; calls := calls s ++ [c]; log := log s |}).

Definition LOGGER_warn (msg : string) : M Store unit :=
  modify (fun s =>
    {| self := self s; calls := calls s;
       log := log s ++ [const.warn msg] |}).

Definition set_last_image (image : option bytes) : M Store unit :=
  modify (fun s =>
    {| self :=
         {| _simplisafe := _simplisafe (self s);
            _system := _system (self s);
            _device := _device (self s);
            _ffmpeg := _ffmpeg (self s);
            _last_image := image;
            _is_online := _is_online (self s);
            _is_subscribed := _is_subscribed (self s) |};
       calls := calls s; log := log s |}).

(** The result is a Python value: image bytes or [None]. *)
Definition async_device_image (members : gmap string SystemStates.t)
    (io : Outcomes) : M Store (option bytes) :=
  this ← gets self;
  shutter_open ← lift (is_shutter_open members this);
  if negb shutter_open then
    mret (_last_image this)
  else
    (* ffmpeg = ImageFrame(self._ffmpeg.binary) *)
    match _video_url this with
    | None => mret None
    | Some input_source =>
        image ← await (get_image (binary (_ffmpeg this)) input_source)
                      (get_image_outcome io);
        set_last_image image;;
        mret image
    end.

Definition handle_async_mjpeg_stream (io : Outcomes)
  : M Store (option string) :=
  this ← gets self;
  match _video_url this with
  | None => mret None
  | Some input_source =>
      LOGGER_warn input_source;;
      (* stream = CameraMjpeg(self._ffmpeg.binary) *)
      await (open_camera (binary (_ffmpeg this)) input_source)
            (open_camera_outcome io);;
      try_finally
        (stream_reader ← await get_reader (get_reader_outcome io);
         response ←
           await (async_aiohttp_proxy_stream stream_reader
                    (ffmpeg_stream_content_type (_ffmpeg this)))
                 (proxy_outcome io);
         mret (Some response))
        (await close (close_outcome io))
  end.

(** [__init__]: the attributes set after the base constructor, given the
    text of [super().unique_id]. *)
Definition _attr_name : string := "Camera".
Definition _attr_unique_id (super_unique_id : string) : string :=
  super_unique_id +:+ "-camera".

Definition is_close (c : Call) : bool :=
  match c with close => true | _ => false end.

Definition is_get_image (c : Call) : bool :=
  match c with get_image _ _ => true | _ => false end.

(** How often a run closed the stream, and how often it invoked the
    frame-grab utility. *)
Definition closes (s : Store) : nat :=
  length (List.filter is_close (calls s)).

Definition frame_grabs (s : Store) : nat :=
  length (List.filter is_get_image (calls s)).

End camera.

(** ** Vocabulary of the statements *)

(** The log a setup function is expected to leave: one record per legacy
    system, in the order of the systems. *)
Definition skipped_log (l : list simplipy.System) : list const.LogRecord :=
  (fun s => const.info const.skip_message (simplipy.system_id s))
    <$> filter (fun s => simplipy.version s = 2%Z) l.

(** A system the setup functions do not skip. *)
Definition newer (s : simplipy.System) : Prop := simplipy.version s <> 2%Z.

(** Concrete cameras, stores and outcomes for the examples. *)
Section CameraSamples.
Import simplipy camera.

Definition sample_device (open_off : bool) : Camera :=
  {| camera_serial := "cam1"; camera_type := CameraTypes.DOORBELL;
     status := "online"; subscription_enabled := true;
     shutter_open_when_off := open_off; shutter_open_when_home := false;
     shutter_open_when_away := true;
     video_url := "https://media.example/v1/cam1/flv" |}.

Definition sample_system (st : SystemStates.t) (open_off : bool) : System :=
  {| version := 3; system_id := 12345; state := st; sensors := [];
     cameras := [sample_device open_off] |}.

Definition sample_camera (st : SystemStates.t) (open_off : bool)
    (cached : option bytes) : SimpliSafeCamera :=
  {| _simplisafe :=
       {| access_token := "tok"; systems := [sample_system st open_off] |};
     _system := sample_system st open_off;
     _device := sample_device open_off;
     _ffmpeg := {| binary := "ffmpeg";
                   ffmpeg_stream_content_type :=
                     "multipart/x-mixed-replace;boundary=ffserver" |};
     _last_image := cached;
     _is_online := true;
     _is_subscribed := true |}.

Definition sample_store (st : SystemStates.t) (open_off : bool)
    (cached : option bytes) : Store :=
  {| self := sample_camera st open_off cached; calls := []; log := [] |}.

Definition sample_outcomes (image : result (option bytes))
    (opened : result bool) (reader : result nat) (proxied : result string)
  : Outcomes :=
  {| get_image_outcome := image; open_camera_outcome := opened;
     get_reader_outcome := reader; proxy_outcome := proxied;
     close_outcome := Return tt |}.

Definition jpeg_frame : option bytes := Some [Byte.xff; Byte.xd8].
Definition old_frame : option bytes := Some [Byte.x01].

(** The enum namespace with the three names of camera.py added as aliases
    of the members they are meant to be. *)
Definition aliased_members : gmap string SystemStates.t :=
  <["off" := SystemStates.OFF]>
    (<["home" := SystemStates.HOME]>
       (<["away" := SystemStates.AWAY]> SystemStates.__members__)).

(** Every external call returns. *)
Definition io_ok : Outcomes :=
  sample_outcomes (Return jpeg_frame) (Return true) (Return 0%nat)
    (Return "response").

(** The client goes away while the stream is being opened. *)
Definition io_open_cancelled : Outcomes :=
  sample_outcomes (Return jpeg_frame) (Raise CancelledError)
    (Return 0%nat) (Return "response").

(** The client goes away while the stream is being proxied. *)
Definition io_proxy_cancelled : Outcomes :=
  sample_outcomes (Return jpeg_frame) (Return true) (Return 0%nat)
    (Raise CancelledError).

End CameraSamples.

(** Concrete events, worlds and systems for the examples. *)
Section SensorSamples.
Import simplipy binary_sensor.

Definition motion_event : WebsocketEvent :=
  {| event_type := EVENT_CAMERA_MOTION_DETECTED; event_system_id := 12345;
     info := "Camera Detected Motion" |}.

Definition doorbell_event : WebsocketEvent :=
  {| event_type := EVENT_DOORBELL_DETECTED; event_system_id := 12345;
     info := "Doorbell Rang" |}.

(** An active sensor with one clear due at time 30, at time 30. *)
Definition active_clear_due : World :=
  {| _attr_is_on := true; clock := 30;
     timers := [{| due := 30; action := clear_delay_listener_of MotionSensor |}];
     written := []; log := [] |}.

(** The module namespace with the two missing names bound: the host's
    scheduling primitive and a delay of [d] seconds. *)
Definition repaired_globals (d : Z) : gmap string PyObject :=
  <["async_call_later" := PyCallLater]>
    (<["MOTION_SENSOR_TRIGGER_CLEAR" := PyInt d]> module_globals).

Definition entry_sensor : SensorV3 :=
  {| sensor_serial := "s1"; type := DeviceTypes.ENTRY; triggered := false;
     low_battery := false |}.

Definition legacy_system : System :=
  {| version := 2; system_id := 777; state := SystemStates.OFF;
     sensors := [entry_sensor]; cameras := [sample_device true] |}.

Definition newer_system : System :=
  {| version := 3; system_id := 12345; state := SystemStates.OFF;
     sensors := [entry_sensor]; cameras := [sample_device true] |}.

Definition sample_simplisafe : SimpliSafe :=
  {| access_token := "tok"; systems := [legacy_system; newer_system] |}.

Definition sample_ffmpeg : camera.FFmpegManager :=
  {| camera.binary := "ffmpeg";
     camera.ffmpeg_stream_content_type :=
       "multipart/x-mixed-replace;boundary=ffserver" |}.

End SensorSamples.

Section SensorVocabulary.
Import simplipy binary_sensor.

(** What the handler does to the store before it reaches the call. *)
Definition flag_raised (event : WebsocketEvent) (w : World) : World :=
  {| _attr_is_on := true; clock := clock w; timers := timers w;
     written := written w; log := log w ++ [const.critical event] |}.

(** A namespace that binds at least what the module binds. *)
Definition extends_module (globals : gmap string PyObject) : Prop :=
  module_globals ⊆ globals.

(** Every integer the delay name may be bound to is at least [D]. *)
Definition delay_at_least (globals : gmap string PyObject) (D : Z) : Prop :=
  forall d, globals !! "MOTION_SENSOR_TRIGGER_CLEAR" = Some (PyInt d) ->
    (D <= d)%Z.

(** After an event processed at [t0]: no pending clear is due before
    [t0 + D], and the flag is up as long as the clock is before that. *)
Definition active_until (t0 D : Z) (w : World) : Prop :=
  (t0 <= clock w)%Z /\
  Forall (fun t => (t0 + D <= due t)%Z) (timers w) /\
  ((clock w < t0 + D)%Z -> _attr_is_on w = true).

End SensorVocabulary.

(** ** Vocabulary of the further properties *)

Section SetupVocabulary.
Import simplipy binary_sensor.

(** What one sensor, one camera and one system add to the [sensors] list,
    written as comprehensions. *)
Definition entities_of_sensor (simplisafe : SimpliSafe) (system : System)
    (sensor : SensorV3) : list Entity :=
  match dict_get TRIGGERED_SENSOR_TYPES (type sensor) with
  | Some device_class =>
      [TriggeredBinarySensor simplisafe system sensor device_class]
  | None => []
  end ++
  (if decide (type sensor ∈ SUPPORTED_BATTERY_SENSOR_TYPES)
   then [BatteryBinarySensor simplisafe system sensor] else []).

Definition entities_of_camera (simplisafe : SimpliSafe) (system : System)
    (cam : Camera) : list Entity :=
  CameraMotionBinarySensor simplisafe system cam ::
  (if decide (camera_type cam = CameraTypes.DOORBELL)
   then [CameraDoorbellBinarySensor simplisafe system cam] else []).

Definition entities_of_system (simplisafe : SimpliSafe) (system : System)
  : list Entity :=
  if decide (version system = 2%Z) then []
  else flat_map (entities_of_sensor simplisafe system) (sensors system)
       ++ flat_map (entities_of_camera simplisafe system) (cameras system).

Definition cameras_of_system (simplisafe : SimpliSafe)
    (ffmpeg : camera.FFmpegManager) (system : System)
  : list camera.SimpliSafeCamera :=
  if decide (version system = 2%Z) then []
  else camera.__init__ simplisafe system ffmpeg <$> cameras system.

Definition entity_simplisafe (e : Entity) : SimpliSafe :=
  match e with
  | TriggeredBinarySensor simplisafe _ _ _ => simplisafe
  | BatteryBinarySensor simplisafe _ _ => simplisafe
  | CameraMotionBinarySensor simplisafe _ _ => simplisafe
  | CameraDoorbellBinarySensor simplisafe _ _ => simplisafe
  end.

(** The entity wraps a device of the system it refers to, and was built by
    the branch of the loop that its class and device type call for. *)
Definition well_placed (e : Entity) : Prop :=
  match e with
  | TriggeredBinarySensor _ system sensor device_class =>
      sensor ∈ sensors system /\
      dict_get TRIGGERED_SENSOR_TYPES (type sensor) = Some device_class
  | BatteryBinarySensor _ system sensor =>
      sensor ∈ sensors system /\
      type sensor ∈ SUPPORTED_BATTERY_SENSOR_TYPES
  | CameraMotionBinarySensor _ system cam => cam ∈ cameras system
  | CameraDoorbellBinarySensor _ system cam =>
      cam ∈ cameras system /\ camera_type cam = CameraTypes.DOORBELL
  end.

End SetupVocabulary.

Section CameraVocabulary.
Import simplipy camera.

(** What the stream method passes to [open_camera] and logs. *)
Definition stream_input (this : SimpliSafeCamera) : string :=
  "-re " +:+ auth_headers this +:+ " -i " +:+ dquote
    +:+ video_url (_device this) +:+ dquote.

(** The calls the stream method makes once the stream is open. *)
Definition calls_after_open (io : Outcomes) (this : SimpliSafeCamera)
  : list Call :=
  get_reader ::
  match get_reader_outcome io with
  | Return stream_reader =>
      [async_aiohttp_proxy_stream stream_reader
         (ffmpeg_stream_content_type (_ffmpeg this))]
  | Raise _ => []
  end ++ [close].

(** The outcome of [try: body finally: close] from the outcomes of the
    three calls: an exception of [close] wins, then the first exception
    of the body. *)
Definition outcome_after_open (io : Outcomes) : result (option string) :=
  match close_outcome io with
  | Raise e => Raise e
  | Return _ =>
      match get_reader_outcome io with
      | Raise e => Raise e
      | Return _ =>
          match proxy_outcome io with
          | Raise e => Raise e
          | Return response => Return (Some response)
          end
      end
  end.

End CameraVocabulary.

Section TransientVocabulary.
Import simplipy binary_sensor.

(** The push events of a trace in order, the time it lets pass, and
    the number of callback firings it asks for. *)
Definition events_of (tr : list Action) : list WebsocketEvent :=
  flat_map (fun a => match a with PushEvent e => [e] | _ => [] end) tr.

Definition elapsed (tr : list Action) : Z :=
  foldr (fun a t => match a with Advance d => Z.of_N d + t | _ => t end)%Z
    0%Z tr.


Definition is_poll (a : DeviceAction) : Prop :=
  match a with Poll _ => True | Refresh => False end.

Definition sample_triggered_sensor : TriggeredBinarySensor.t :=
  {| TriggeredBinarySensor._device := entry_sensor;
     TriggeredBinarySensor._attr_device_class := BinarySensorDeviceClass.DOOR;
     TriggeredBinarySensor._attr_is_on := None |}.

Definition sample_battery_sensor : BatteryBinarySensor.t :=
  {| BatteryBinarySensor._device := entry_sensor;
     BatteryBinarySensor._attr_is_on := None |}.

Definition entry_sensor_open_low : SensorV3 :=
  {| sensor_serial := "s1"; type := DeviceTypes.ENTRY; triggered := true;
     low_battery := true |}.

End TransientVocabulary.

(** * Properties *)

(** Unfolds the monad so that a method body becomes a term over the store. *)
Ltac run_M :=
  unfold mbind, M_bind, result_bind, mret, M_ret, result_ret, gets, modify,
    raise, lift, try_finally;
  simpl.

(** ** camera.py *)

Section CameraProperties.
Import simplipy camera.

(** *** The shutter computation and the still image in the module as
    written *)

Lemma member_names_unresolved :
  (SystemStates.__members__ !! "off" = None /\
   SystemStates.__members__ !! "home" = None /\
   SystemStates.__members__ !! "away" = None) /\
  (SystemStates.__members__ !! "OFF" = Some SystemStates.OFF /\
   SystemStates.__members__ !! "HOME" = Some SystemStates.HOME /\
   SystemStates.__members__ !! "AWAY" = Some SystemStates.AWAY).
Proof. repeat split. Qed.

Lemma is_shutter_open_as_written this :
  is_shutter_open SystemStates.__members__ this
    = Raise (AttributeError "off").
Proof. reflexivity. Qed.

Lemma still_image_as_written io s :
  async_device_image SystemStates.__members__ io s
    = (Raise (AttributeError "off"), s).
Proof. reflexivity. Qed.

(** C5, on the code: the enum has the members OFF, HOME and AWAY but none
    called off, home or away, so the first comparison of the shutter
    computation raises [AttributeError] for every camera and every system
    state: no per-state flag and no default is ever returned. *)
Theorem shutter_computation_raises_AttributeError :
  ((SystemStates.__members__ !! "off" = None /\
    SystemStates.__members__ !! "home" = None /\
    SystemStates.__members__ !! "away" = None) /\
   (SystemStates.__members__ !! "OFF" = Some SystemStates.OFF /\
    SystemStates.__members__ !! "HOME" = Some SystemStates.HOME /\
    SystemStates.__members__ !! "AWAY" = Some SystemStates.AWAY)) /\
  (forall this,
     is_shutter_open SystemStates.__members__ this
       = Raise (AttributeError "off")) /\
  state (_system (sample_camera SystemStates.OFF false None))
    = SystemStates.OFF /\
  is_shutter_open SystemStates.__members__
    (sample_camera SystemStates.OFF false None)
    <> Return (shutter_open_when_off (sample_device false)) /\
  is_shutter_open SystemStates.__members__
    (sample_camera SystemStates.ALARM false None) <> Return true.
Proof.
  split; [exact member_names_unresolved|].
  split; [exact is_shutter_open_as_written|].
  split; [reflexivity|]. split; discriminate.
Qed.

(** C4, on the code: with the system off and the device configured to
    close the shutter when off, the still-image method raises
    [AttributeError] where the cached image (or [None] for an empty cache)
    should be returned; it makes no call and leaves the store as it was. *)
Theorem closed_configuration_raises_instead_of_cache :
  (state (_system (sample_camera SystemStates.OFF false old_frame))
     = SystemStates.OFF /\
   shutter_open_when_off
     (_device (sample_camera SystemStates.OFF false old_frame)) = false) /\
  async_device_image SystemStates.__members__ io_ok
    (sample_store SystemStates.OFF false old_frame)
    = (Raise (AttributeError "off"),
       sample_store SystemStates.OFF false old_frame) /\
  async_device_image SystemStates.__members__ io_ok
    (sample_store SystemStates.OFF false None)
    = (Raise (AttributeError "off"),
       sample_store SystemStates.OFF false None).
Proof. repeat split. Qed.

(** C6, on the code: with the system away, the device configured to open
    the shutter when away and a frame grab that would return an image, the
    still-image method raises [AttributeError] before the utility is called:
    no image is returned and the cache keeps the old image. *)
Theorem open_configuration_grabs_no_frame :
  (state (_system (sample_camera SystemStates.AWAY false old_frame))
     = SystemStates.AWAY /\
   shutter_open_when_away
     (_device (sample_camera SystemStates.AWAY false old_frame)) = true /\
   get_image_outcome io_ok = Return jpeg_frame) /\
  (async_device_image SystemStates.__members__ io_ok
     (sample_store SystemStates.AWAY false old_frame)).1
    = Raise (AttributeError "off") /\
  frame_grabs (async_device_image SystemStates.__members__ io_ok
     (sample_store SystemStates.AWAY false old_frame)).2 = 0%nat /\
  _last_image (self (async_device_image SystemStates.__members__ io_ok
     (sample_store SystemStates.AWAY false old_frame)).2) = old_frame.
Proof. repeat split. Qed.

(** *** With the three names resolving

    What the two methods are written to do shows for any enum namespace in
    which off, home and away give the members OFF, HOME and AWAY. *)

Section MembersResolved.
Variable members : gmap string SystemStates.t.
Hypothesis Hoff : members !! "off" = Some SystemStates.OFF.
Hypothesis Hhome : members !! "home" = Some SystemStates.HOME.
Hypothesis Haway : members !! "away" = Some SystemStates.AWAY.

Lemma resolved_is_shutter_open_by_state (this : SimpliSafeCamera) :
  (state (_system this) = SystemStates.OFF ->
     is_shutter_open members this
       = Return (shutter_open_when_off (_device this))) /\
  (state (_system this) = SystemStates.HOME ->
     is_shutter_open members this
       = Return (shutter_open_when_home (_device this))) /\
  (state (_system this) = SystemStates.AWAY ->
     is_shutter_open members this
       = Return (shutter_open_when_away (_device this))) /\
  (state (_system this) <> SystemStates.OFF ->
   state (_system this) <> SystemStates.HOME ->
   state (_system this) <> SystemStates.AWAY ->
     is_shutter_open members this = Return true).
Proof.
  unfold is_shutter_open, SystemStates.getattr. run_M.
  rewrite Hoff. simpl.
  destruct (decide (state (_system this) = SystemStates.OFF));
    [repeat split; intros; congruence|].
  rewrite Hhome. simpl.
  destruct (decide (state (_system this) = SystemStates.HOME));
    [repeat split; intros; congruence|].
  rewrite Haway. simpl.
  destruct (decide (state (_system this) = SystemStates.AWAY));
    repeat split; intros; congruence.
Qed.

Lemma resolved_closed_shutter_returns_cache (io : Outcomes) (s : Store) :
  is_shutter_open members (self s) = Return false ->
  async_device_image members io s = (Return (_last_image (self s)), s).
Proof.
  intros Hclosed. unfold async_device_image, lift. run_M.
  rewrite Hclosed. reflexivity.
Qed.

Lemma resolved_open_shutter_fetches_and_caches (io : Outcomes) (s : Store)
    (image : option bytes) :
  is_shutter_open members (self s) = Return true ->
  get_image_outcome io = Return image ->
  (async_device_image members io s).1 = Return image /\
  _last_image (self (async_device_image members io s).2) = image /\
  frame_grabs (async_device_image members io s).2 = S (frame_grabs s).
Proof.
  intros Hopen Himage.
  unfold async_device_image, lift, await, set_last_image. run_M.
  rewrite Hopen. simpl. rewrite Himage. simpl.
  repeat split.
  unfold frame_grabs. simpl.
  rewrite List.filter_app, length_app. simpl. lia.
Qed.

End MembersResolved.

Example aliased_still_image :
  (aliased_members !! "off" = Some SystemStates.OFF /\
   aliased_members !! "home" = Some SystemStates.HOME /\
   aliased_members !! "away" = Some SystemStates.AWAY) /\
  async_device_image aliased_members io_ok
    (sample_store SystemStates.OFF false old_frame)
    = (Return old_frame, sample_store SystemStates.OFF false old_frame) /\
  (async_device_image aliased_members io_ok
     (sample_store SystemStates.AWAY false old_frame)).1
    = Return jpeg_frame.
Proof. repeat split. Qed.

(** C7, as the code has it: once [open_camera] has returned, the stream is
    closed exactly once, however [get_reader], the proxy loop and [close]
    itself end (return, exception, cancellation on client disconnect);
    [open_camera] is awaited before the [try], so when it raises or is
    cancelled the exception leaves the method and [close] is not called. *)
Theorem stream_closed_once_when_opened (io : Outcomes) (s : Store) :
  (forall opened, open_camera_outcome io = Return opened ->
     closes (handle_async_mjpeg_stream io s).2 = S (closes s)) /\
  (forall e, open_camera_outcome io = Raise e ->
     (handle_async_mjpeg_stream io s).1 = Raise e /\
     closes (handle_async_mjpeg_stream io s).2 = closes s).
Proof.
  unfold handle_async_mjpeg_stream, await, LOGGER_warn, closes. run_M.
  split.
  - intros opened Hopened. simpl. rewrite Hopened. simpl.
    destruct (get_reader_outcome io) as [reader|e1]; simpl;
      [destruct (proxy_outcome io) as [response|e2]; simpl|];
      destruct (close_outcome io) as [[]|e3]; simpl;
      rewrite !List.filter_app, !length_app; simpl; lia.
  - intros e Hraised. simpl. rewrite Hraised. simpl.
    rewrite !List.filter_app, !length_app. simpl. split; [reflexivity|lia].
Qed.

Lemma stream_closed_once_when_opened_witness :
  closes (handle_async_mjpeg_stream io_proxy_cancelled
            (sample_store SystemStates.AWAY false None)).2 = 1%nat /\
  closes (handle_async_mjpeg_stream io_open_cancelled
            (sample_store SystemStates.AWAY false None)).2 = 0%nat.
Proof.
  split.
  - apply (proj1 (stream_closed_once_when_opened io_proxy_cancelled
             (sample_store SystemStates.AWAY false None)) true).
    reflexivity.
  - apply (proj2 (stream_closed_once_when_opened io_open_cancelled
             (sample_store SystemStates.AWAY false None)) CancelledError).
    reflexivity.
Defined.

(** C7, as stated, fails: an invocation whose [open_camera] is cancelled
    makes one external call, the opening, and never closes the stream. *)
Lemma stream_not_closed_when_open_cancelled :
  (handle_async_mjpeg_stream io_open_cancelled
     (sample_store SystemStates.AWAY false None)).1
    = Raise CancelledError /\
  calls (handle_async_mjpeg_stream io_open_cancelled
           (sample_store SystemStates.AWAY false None)).2
    = [open_camera "ffmpeg"
         ("-re -headers " +:+ dquote +:+ "Authorization: Bearer tok"
            +:+ dquote +:+ " -i " +:+ dquote
            +:+ "https://media.example/v1/cam1/flv" +:+ dquote)] /\
  closes (handle_async_mjpeg_stream io_open_cancelled
            (sample_store SystemStates.AWAY false None)).2 <> 1%nat.
Proof. repeat split. vm_compute. discriminate. Qed.

End CameraProperties.

(** ** The setup functions *)

Section Setup.
Import simplipy.

(** A loop that only appends keeps what holds of every element. *)
Lemma foldl_Forall {A B} (P : A -> Prop) (f : list A -> B -> list A)
    (l : list B) (acc : list A) :
  (forall acc b, Forall P acc -> Forall P (f acc b)) ->
  Forall P acc -> Forall P (foldl f acc l).
Proof.
  intros Hf. revert acc.
  induction l as [|b l IH]; intros acc Hacc; simpl; auto.
Qed.

Lemma add_sensor_newer simplisafe system acc sensor :
  newer system ->
  Forall (fun e => newer (binary_sensor.entity_system e)) acc ->
  Forall (fun e => newer (binary_sensor.entity_system e))
    (binary_sensor.add_sensor simplisafe system acc sensor).
Proof.
  intros Hsys Hacc. unfold binary_sensor.add_sensor.
  destruct (binary_sensor.dict_get _ _); case_decide;
    repeat (apply Forall_app; split); auto;
    apply Forall_singleton; exact Hsys.
Qed.

Lemma add_camera_newer simplisafe system acc cam :
  newer system ->
  Forall (fun e => newer (binary_sensor.entity_system e)) acc ->
  Forall (fun e => newer (binary_sensor.entity_system e))
    (binary_sensor.add_camera simplisafe system acc cam).
Proof.
  intros Hsys Hacc. unfold binary_sensor.add_camera.
  case_decide; repeat (apply Forall_app; split); auto;
    apply Forall_singleton; exact Hsys.
Qed.

Lemma skipped_log_snoc l s :
  skipped_log (l ++ [s]) =
  skipped_log l ++
    (if decide (version s = 2%Z)
     then [const.info const.skip_message (system_id s)] else []).
Proof.
  unfold skipped_log. rewrite filter_app, fmap_app. f_equal.
  rewrite filter_cons, filter_nil. case_decide; reflexivity.
Qed.

(** The invariant of the sensor setup loop, after the systems [done]. *)
Lemma binary_sensor_setup_loop simplisafe todo done acc :
  Forall (fun e => newer (binary_sensor.entity_system e)) acc.1 ->
  acc.2 = skipped_log done ->
  let out := foldl (binary_sensor.setup_system simplisafe) acc todo in
  Forall (fun e => newer (binary_sensor.entity_system e)) out.1 /\
  out.2 = skipped_log (done ++ todo).
Proof.
  revert done acc.
  induction todo as [|s todo IH]; intros done [ents lg] Hents Hlog; simpl.
  - rewrite app_nil_r. auto.
  - replace (done ++ s :: todo) with ((done ++ [s]) ++ todo)
      by (rewrite <- app_assoc; reflexivity).
    apply IH; simpl in *; rewrite ?skipped_log_snoc; case_decide; simpl.
    + exact Hents.
    + apply foldl_Forall; [intros; apply add_camera_newer; auto|].
      apply foldl_Forall; [intros; apply add_sensor_newer; auto|].
      exact Hents.
    + congruence.
    + rewrite app_nil_r. exact Hlog.
Qed.

Lemma camera_setup_loop simplisafe ffmpeg todo done acc :
  Forall (fun c => newer (camera._system c)) acc.1 ->
  acc.2 = skipped_log done ->
  let out := foldl (camera.setup_system simplisafe ffmpeg) acc todo in
  Forall (fun c => newer (camera._system c)) out.1 /\
  out.2 = skipped_log (done ++ todo).
Proof.
  revert done acc.
  induction todo as [|s todo IH]; intros done [cams lg] Hcams Hlog; simpl.
  - rewrite app_nil_r. auto.
  - replace (done ++ s :: todo) with ((done ++ [s]) ++ todo)
      by (rewrite <- app_assoc; reflexivity).
    apply IH; simpl in *; rewrite ?skipped_log_snoc; case_decide; simpl.
    + exact Hcams.
    + apply foldl_Forall; [|exact Hcams].
      intros acc cam Hacc. apply Forall_app. split; [exact Hacc|].
      apply Forall_singleton. assumption.
    + congruence.
    + rewrite app_nil_r. exact Hlog.
Qed.

(** C8: whatever systems the two setup functions are handed, no entity
    they construct belongs to a system of version 2, and each function
    logs exactly one skip record per system of version 2. *)
Theorem legacy_systems_skipped (simplisafe : SimpliSafe)
    (ffmpeg : camera.FFmpegManager) :
  (forall e, e ∈ (binary_sensor.async_setup_entry simplisafe).1 ->
     version (binary_sensor.entity_system e) <> 2%Z) /\
  (forall c, c ∈ (camera.async_setup_entry simplisafe ffmpeg).1 ->
     version (camera._system c) <> 2%Z) /\
  (binary_sensor.async_setup_entry simplisafe).2
    = skipped_log (systems simplisafe) /\
  (camera.async_setup_entry simplisafe ffmpeg).2
    = skipped_log (systems simplisafe).
Proof.
  destruct (binary_sensor_setup_loop simplisafe (systems simplisafe) []
              ([], [])) as [Hb Hblog]; [constructor|reflexivity|].
  destruct (camera_setup_loop simplisafe ffmpeg (systems simplisafe) []
              ([], [])) as [Hc Hclog]; [constructor|reflexivity|].
  simpl in *.
  unfold binary_sensor.async_setup_entry, camera.async_setup_entry.
  rewrite Forall_forall in Hb. rewrite Forall_forall in Hc.
  split; [exact Hb|]. split; [exact Hc|]. split; assumption.
Qed.

Example setup_on_mixed_systems :
  binary_sensor.async_setup_entry sample_simplisafe =
    ([ binary_sensor.TriggeredBinarySensor sample_simplisafe newer_system
         entry_sensor binary_sensor.BinarySensorDeviceClass.DOOR;
       binary_sensor.BatteryBinarySensor sample_simplisafe newer_system
         entry_sensor;
       binary_sensor.CameraMotionBinarySensor sample_simplisafe
         newer_system (sample_device true);
       binary_sensor.CameraDoorbellBinarySensor sample_simplisafe
         newer_system (sample_device true) ],
     [ const.info const.skip_message 777 ]) /\
  camera.async_setup_entry sample_simplisafe sample_ffmpeg =
    ([ camera.__init__ sample_simplisafe newer_system sample_ffmpeg
         (sample_device true) ],
     [ const.info const.skip_message 777 ]).
Proof. split; reflexivity. Qed.

Lemma legacy_systems_skipped_witness :
  version (binary_sensor.entity_system
             (binary_sensor.BatteryBinarySensor sample_simplisafe
                newer_system entry_sensor)) <> 2%Z /\
  version (camera._system
             (camera.__init__ sample_simplisafe newer_system sample_ffmpeg
                (sample_device true))) <> 2%Z.
Proof.
  split.
  - apply (proj1 (legacy_systems_skipped sample_simplisafe sample_ffmpeg)).
    apply list_elem_of_In. vm_compute. tauto.
  - apply (proj1 (proj2
             (legacy_systems_skipped sample_simplisafe sample_ffmpeg))).
    apply list_elem_of_In. vm_compute. tauto.
Defined.

End Setup.

(** ** The transient camera sensors *)

Section TransientSensors.
Import simplipy binary_sensor.

Lemma async_call_later_unbound :
  module_globals !! "async_call_later" = None /\
  "async_call_later" ∉ builtins.
Proof.
  split; [reflexivity|].
  apply (bool_decide_unpack _). vm_compute. exact I.
Qed.

Lemma MOTION_SENSOR_TRIGGER_CLEAR_unbound :
  module_globals !! "MOTION_SENSOR_TRIGGER_CLEAR" = None /\
  "MOTION_SENSOR_TRIGGER_CLEAR" ∉ builtins.
Proof.
  split; [reflexivity|].
  apply (bool_decide_unpack _). vm_compute. exact I.
Qed.

(** The handler of either class in the module as written. *)
Lemma handler_as_written cls event w :
  async_update_from_websocket_event cls module_globals event w =
    (Raise (NameError "async_call_later"), flag_raised event w).
Proof. destruct cls; reflexivity. Qed.

(** The handler under any binding of the globals: it logs and sets the
    flag, and then either stops there or has appended one clear, due
    [d] after now, [d] being the integer bound to the delay name. *)
Lemma handler_any_globals globals cls event w :
  extends_module globals ->
  let w' := (async_update_from_websocket_event cls globals event w).2 in
  w' = flag_raised event w \/
  exists d, globals !! "MOTION_SENSOR_TRIGGER_CLEAR" = Some (PyInt d) /\
    w' = set_timers
           (timers w ++ [{| due := clock w + d;
                            action := clear_delay_listener_of cls |}])
           (flag_raised event w).
Proof.
  intros Hext.
  assert (globals !! "LOGGER" = Some PyOpaque) as HLOGGER
    by (eapply lookup_weaken; [|exact Hext]; reflexivity).
  assert (globals !! "callback" = Some PyOpaque) as Hcallback
    by (eapply lookup_weaken; [|exact Hext]; reflexivity).
  destruct cls; simpl;
    unfold CameraDoorbellBinarySensor.async_update_from_websocket_event,
      CameraMotionBinarySensor.async_update_from_websocket_event,
      load_global, LOGGER_critical, call, async_call_later; run_M;
    rewrite HLOGGER, Hcallback; simpl;
    destruct (globals !! "async_call_later") as [[]|]; simpl;
    repeat case_decide; simpl; auto;
    destruct (globals !! "MOTION_SENSOR_TRIGGER_CLEAR") as [[]|]; simpl;
    repeat case_decide; simpl; eauto.
Qed.

Lemma rest_refresh_is_noop cls w :
  async_update_from_rest_api cls w = (Return tt, w).
Proof. destruct cls; reflexivity. Qed.

Lemma clear_delay_listener_clears cb w :
  run_callback cb w =
    (Return tt,
     {| _attr_is_on := false; clock := clock w; timers := timers w;
        written := written w ++ [false]; log := log w |}).
Proof. destruct cb as [[]]; reflexivity. Qed.

(** *** The loop in the module as written *)

Lemma step_as_written_no_timers cls a w :
  timers w = [] -> timers (step module_globals cls a w) = [].
Proof.
  intros Hnone. destruct a as [event| |d|i]; simpl.
  - rewrite handler_as_written. exact Hnone.
  - rewrite rest_refresh_is_noop. exact Hnone.
  - exact Hnone.
  - rewrite Hnone. exact Hnone.
Qed.

Lemma step_as_written_stays_on cls a w :
  timers w = [] -> _attr_is_on w = true ->
  _attr_is_on (step module_globals cls a w) = true.
Proof.
  intros Hnone Hon. destruct a as [event| |d|i]; simpl.
  - rewrite handler_as_written. reflexivity.
  - rewrite rest_refresh_is_noop. exact Hon.
  - exact Hon.
  - rewrite Hnone. exact Hon.
Qed.

Lemma run_as_written_no_timers cls tr w :
  timers w = [] -> timers (run module_globals cls tr w) = [].
Proof.
  revert w. induction tr as [|a tr IH]; intros w Hnone; simpl; [done|].
  apply IH, step_as_written_no_timers, Hnone.
Qed.

Lemma run_as_written_stays_on cls tr w :
  timers w = [] -> _attr_is_on w = true ->
  _attr_is_on (run module_globals cls tr w) = true.
Proof.
  revert w. induction tr as [|a tr IH]; intros w Hnone Hon; simpl; [done|].
  apply IH.
  - apply step_as_written_no_timers, Hnone.
  - apply step_as_written_stays_on; assumption.
Qed.

Lemma run_app globals cls tr1 tr2 w :
  run globals cls (tr1 ++ tr2) w
    = run globals cls tr2 (run globals cls tr1 w).
Proof. apply foldl_app. Qed.

(** *** The lower bound on the active period, under any binding *)

Lemma step_active_until globals cls t0 D a w :
  extends_module globals -> delay_at_least globals D ->
  active_until t0 D w -> active_until t0 D (step globals cls a w).
Proof.
  intros Hext Hdelay (Hclock & Hdue & Hon).
  destruct a as [event| |d|i]; simpl.
  - destruct (handler_any_globals globals cls event w Hext)
      as [->|(d & Hd & ->)]; simpl.
    + repeat split; auto.
    + repeat split; auto.
      apply Forall_app. split; [exact Hdue|].
      apply Forall_singleton. simpl. specialize (Hdelay d Hd). lia.
  - rewrite rest_refresh_is_noop. repeat split; auto.
  - repeat split; simpl; auto; [lia|]. intros Hlt. apply Hon. lia.
  - destruct (timers w !! i) as [t|] eqn:Hi; [|repeat split; auto].
    case_decide as Hfire; [|repeat split; auto].
    rewrite clear_delay_listener_clears. simpl.
    pose proof (Forall_lookup_1 _ _ _ _ Hdue Hi) as Ht. simpl in Ht.
    repeat split; simpl; auto.
    + apply Forall_delete, Hdue.
    + intros Hlt. lia.
Qed.

Lemma run_active_until globals cls t0 D tr w :
  extends_module globals -> delay_at_least globals D ->
  active_until t0 D w -> active_until t0 D (run globals cls tr w).
Proof.
  intros Hext Hdelay. revert w.
  induction tr as [|a tr IH]; intros w Hw; simpl; [done|].
  apply IH, step_active_until; assumption.
Qed.

(** An event processed while nothing is pending opens such a period. *)
Lemma event_opens_active_period globals cls D event w :
  extends_module globals -> delay_at_least globals D ->
  timers w = [] ->
  active_until (clock w) D (step globals cls (PushEvent event) w).
Proof.
  intros Hext Hdelay Hnone. simpl.
  destruct (handler_any_globals globals cls event w Hext)
    as [->|(d & Hd & ->)]; simpl.
  - repeat split; simpl; auto; [lia|]. rewrite Hnone. constructor.
  - repeat split; simpl; auto; [lia|]. rewrite Hnone.
    apply Forall_singleton. simpl. specialize (Hdelay d Hd). lia.
Qed.

Lemma active_for_delay_any_globals globals cls D event post w :
  extends_module globals -> delay_at_least globals D ->
  timers w = [] ->
  let w1 := step globals cls (PushEvent event) w in
  _attr_is_on w1 = true /\
  ((clock (run globals cls post w1) < clock w + D)%Z ->
   _attr_is_on (run globals cls post w1) = true).
Proof.
  intros Hext Hdelay Hnone w1. split.
  - subst w1. simpl.
    destruct (handler_any_globals globals cls event w Hext)
      as [->|(d & Hd & ->)]; reflexivity.
  - apply (run_active_until globals cls (clock w) D post w1 Hext Hdelay).
    apply event_opens_active_period; assumption.
Qed.

Lemma module_delay_at_least D : delay_at_least module_globals D.
Proof. intros d Hd. vm_compute in Hd. discriminate. Qed.

(** *** The claims *)

(** C2: neither [async_call_later] nor [MOTION_SENSOR_TRIGGER_CLEAR] is
    bound in the module or a builtin; so for either class and every event
    the handler sets the flag and then raises [NameError], leaving the
    pending callbacks as they were; no run of the loop from a fresh sensor
    ever has a clear scheduled, and once an event was processed the flag is
    up after every continuation. *)
Theorem websocket_handler_raises_NameError (cls : TransientClass) :
  (module_globals !! "async_call_later" = None /\
   "async_call_later" ∉ builtins) /\
  (module_globals !! "MOTION_SENSOR_TRIGGER_CLEAR" = None /\
   "MOTION_SENSOR_TRIGGER_CLEAR" ∉ builtins) /\
  (forall event w,
     (async_update_from_websocket_event cls module_globals event w).1
       = Raise (NameError "async_call_later") /\
     _attr_is_on
       (async_update_from_websocket_event cls module_globals event w).2
       = true /\
     timers (async_update_from_websocket_event cls module_globals event w).2
       = timers w) /\
  (forall t0 tr, timers (run module_globals cls tr (initial t0)) = []) /\
  (forall t0 pre event post,
     _attr_is_on
       (run module_globals cls (pre ++ PushEvent event :: post) (initial t0))
       = true).
Proof.
  split; [exact async_call_later_unbound|].
  split; [exact MOTION_SENSOR_TRIGGER_CLEAR_unbound|].
  split; [|split].
  - intros event w. rewrite handler_as_written. auto.
  - intros t0 tr. apply run_as_written_no_timers. reflexivity.
  - intros t0 pre event post. rewrite run_app. simpl.
    apply run_as_written_stays_on.
    + apply (step_as_written_no_timers cls (PushEvent event)),
        run_as_written_no_timers.
      reflexivity.
    + rewrite handler_as_written. reflexivity.
Qed.

(** C3: an event processed while no clear is pending leaves the flag up
    at once, and whatever the loop does afterwards (further events,
    refreshes, time passing, callbacks firing) the flag is still up at
    every moment earlier than CLEAR_DELAY after that event. *)
Theorem active_for_at_least_clear_delay (cls : TransientClass)
    (CLEAR_DELAY : Z) (event : WebsocketEvent) (post : list Action)
    (w : World) :
  timers w = [] ->
  _attr_is_on (step module_globals cls (PushEvent event) w) = true /\
  ((clock (run module_globals cls post
             (step module_globals cls (PushEvent event) w))
      < clock w + CLEAR_DELAY)%Z ->
   _attr_is_on (run module_globals cls post
                  (step module_globals cls (PushEvent event) w)) = true).
Proof.
  intros Hnone.
  apply (active_for_delay_any_globals module_globals cls CLEAR_DELAY
           event post w (reflexivity _) (module_delay_at_least CLEAR_DELAY)
           Hnone).
Qed.

Lemma active_for_at_least_clear_delay_witness :
  _attr_is_on (step module_globals MotionSensor (PushEvent motion_event)
                 (initial 0)) = true /\
  _attr_is_on (run module_globals MotionSensor
                 [Advance 10; PushEvent motion_event; Advance 15; Fire 0]
                 (step module_globals MotionSensor (PushEvent motion_event)
                    (initial 0))) = true.
Proof.
  destruct (active_for_at_least_clear_delay MotionSensor 30 motion_event
              [Advance 10; PushEvent motion_event; Advance 15; Fire 0]
              (initial 0) eq_refl) as [Hfirst Hlater].
  split; [exact Hfirst|].
  apply Hlater. vm_compute. reflexivity.
Defined.

(** C10: a step of the loop takes the flag from true to false only by
    firing a pending clear callback that is due; the REST refresh hook of
    either class changes nothing at all. *)
Theorem only_clear_resets_active (cls : TransientClass) (a : Action)
    (w : World) :
  (_attr_is_on w = true ->
   _attr_is_on (step module_globals cls a w) = false ->
   exists i t, a = Fire i /\ timers w !! i = Some t /\
     (due t <= clock w)%Z /\
     step module_globals cls a w
       = (run_callback (action t) (set_timers (delete i (timers w)) w)).2) /\
  async_update_from_rest_api cls w = (Return tt, w) /\
  step module_globals cls RestRefresh w = w.
Proof.
  split; [|split].
  - intros Hon Hoff. destruct a as [event| |d|i]; simpl in Hoff.
    + rewrite handler_as_written in Hoff. discriminate.
    + rewrite rest_refresh_is_noop in Hoff. simpl in Hoff. congruence.
    + congruence.
    + simpl. destruct (timers w !! i) as [t|] eqn:Hi; [|congruence].
      case_decide as Hdue; [|congruence].
      exists i, t. auto.
  - apply rest_refresh_is_noop.
  - simpl. rewrite rest_refresh_is_noop. reflexivity.
Qed.

Lemma only_clear_resets_active_witness :
  exists i t, Fire 0 = Fire i /\ timers active_clear_due !! i = Some t /\
    (due t <= clock active_clear_due)%Z /\
    step module_globals MotionSensor (Fire 0) active_clear_due
      = (run_callback (action t)
           (set_timers (delete i (timers active_clear_due))
              active_clear_due)).2.
Proof.
  apply (proj1 (only_clear_resets_active MotionSensor (Fire 0)
                  active_clear_due)); reflexivity.
Defined.

(** C1, on the code: a second event reaching a sensor that is already
    active sets the flag again and raises [NameError] at the scheduling
    call; after both events no clear is pending, for either class. *)
Theorem retrigger_schedules_no_clear :
  (let w1 := run module_globals MotionSensor [PushEvent motion_event]
               (initial 0) in
   _attr_is_on w1 = true /\
   async_update_from_websocket_event MotionSensor module_globals
     motion_event w1
     = (Raise (NameError "async_call_later"), flag_raised motion_event w1)
   /\
   timers (run module_globals MotionSensor
             [PushEvent motion_event; PushEvent motion_event] (initial 0))
     = []) /\
  (let w1 := run module_globals DoorbellSensor [PushEvent doorbell_event]
               (initial 0) in
   _attr_is_on w1 = true /\
   async_update_from_websocket_event DoorbellSensor module_globals
     doorbell_event w1
     = (Raise (NameError "async_call_later"),
        flag_raised doorbell_event w1) /\
   timers (run module_globals DoorbellSensor
             [PushEvent doorbell_event; PushEvent doorbell_event]
             (initial 0))
     = []).
Proof. repeat split. Qed.

(** C9, on the code: when an event reaches an idle sensor of either class
    the flag goes up but no state is written to the host: the handler has
    no publishing call of its own, and since it raises, nothing that a
    caller places after it runs either.  The clear callback does publish. *)
Theorem event_arrival_publishes_nothing :
  (forall cls event w,
     written (step module_globals cls (PushEvent event) w) = written w) /\
  (forall cls event (rest : unit -> M World unit) w,
     (async_update_from_websocket_event cls module_globals event ≫= rest) w
       = (Raise (NameError "async_call_later"), flag_raised event w)) /\
  (let w1 := step module_globals MotionSensor (PushEvent motion_event)
               (initial 0) in
   _attr_is_on (initial 0) = false /\ _attr_is_on w1 = true /\
   written w1 = []) /\
  (forall cb w, written (run_callback cb w).2 = written w ++ [false]).
Proof.
  split; [|split; [|split]].
  - intros cls event w. simpl. rewrite handler_as_written. reflexivity.
  - intros cls event rest w. unfold mbind, M_bind.
    rewrite handler_as_written. reflexivity.
  - repeat split.
  - intros cb w. rewrite clear_delay_listener_clears. reflexivity.
Qed.

(** *** With the two names bound

    What the handler is written to do shows once the namespace binds the
    scheduler and a delay: each event appends one more clear and none is
    cancelled, and the first clear to fire lowers the flag although a
    later event is less than the delay old. *)
Example repaired_retrigger_stacks_clears :
  timers (run (repaired_globals 30) MotionSensor
            [PushEvent motion_event; Advance 5; PushEvent motion_event]
            (initial 0))
    = [ {| due := 30; action := clear_delay_listener_of MotionSensor |};
        {| due := 35; action := clear_delay_listener_of MotionSensor |} ]
  /\
  (let w := run (repaired_globals 30) MotionSensor
              [PushEvent motion_event; Advance 5; PushEvent motion_event;
               Advance 25; Fire 0] (initial 0) in
   _attr_is_on w = false /\ clock w = 30%Z /\ written w = [false] /\
   timers w
     = [ {| due := 35; action := clear_delay_listener_of MotionSensor |} ]).
Proof. repeat split. Qed.

Lemma repaired_delay_at_least d : delay_at_least (repaired_globals d) d.
Proof.
  intros d' Hd'. unfold repaired_globals in Hd'.
  rewrite lookup_insert_ne in Hd' by discriminate.
  rewrite lookup_insert_eq in Hd'. injection Hd' as ->. lia.
Qed.

Lemma repaired_extends_module d : extends_module (repaired_globals d).
Proof.
  unfold extends_module, repaired_globals.
  etrans; [|apply insert_subseteq]; [apply insert_subseteq; reflexivity|].
  rewrite lookup_insert_ne by discriminate. reflexivity.
Qed.

(** The lower bound of C3 also holds there, so it does not rest on the
    handler failing. *)
Lemma repaired_active_for_delay cls d event post w :
  timers w = [] ->
  (clock (run (repaired_globals d) cls post
            (step (repaired_globals d) cls (PushEvent event) w))
     < clock w + d)%Z ->
  _attr_is_on (run (repaired_globals d) cls post
                 (step (repaired_globals d) cls (PushEvent event) w))
    = true.
Proof.
  intros Hnone.
  apply (active_for_delay_any_globals (repaired_globals d) cls d event
           post w (repaired_extends_module d) (repaired_delay_at_least d)
           Hnone).
Qed.

End TransientSensors.


(** * Further properties *)

(** ** What the setup functions construct *)

Section SetupContents.
Import simplipy.

Lemma foldl_append_flat_map {A B} (f : list A -> B -> list A)
    (g : B -> list A) (l : list B) (acc : list A) :
  (forall acc b, f acc b = acc ++ g b) ->
  foldl f acc l = acc ++ flat_map g l.
Proof.
  intros Hf. revert acc.
  induction l as [|b l IH]; intros acc; simpl.
  - rewrite app_nil_r. reflexivity.
  - rewrite IH, Hf, <- app_assoc. reflexivity.
Qed.

Lemma add_sensor_appends simplisafe system acc sensor :
  binary_sensor.add_sensor simplisafe system acc sensor
    = acc ++ entities_of_sensor simplisafe system sensor.
Proof.
  unfold binary_sensor.add_sensor, entities_of_sensor.
  destruct (binary_sensor.dict_get _ _); case_decide; simpl;
    rewrite <- ?app_assoc, ?app_nil_r; reflexivity.
Qed.

Lemma add_camera_appends simplisafe system acc cam :
  binary_sensor.add_camera simplisafe system acc cam
    = acc ++ entities_of_camera simplisafe system cam.
Proof.
  unfold binary_sensor.add_camera, entities_of_camera.
  case_decide; simpl; rewrite <- ?app_assoc; reflexivity.
Qed.

Lemma binary_sensor_setup_system_appends simplisafe acc system :
  (binary_sensor.setup_system simplisafe acc system).1
    = acc.1 ++ entities_of_system simplisafe system.
Proof.
  destruct acc as [ents lg]. unfold binary_sensor.setup_system,
    entities_of_system. case_decide; simpl.
  - rewrite app_nil_r. reflexivity.
  - rewrite (foldl_append_flat_map _ _ _ _ (add_camera_appends _ _)).
    rewrite (foldl_append_flat_map _ _ _ _ (add_sensor_appends _ _)).
    rewrite <- app_assoc. reflexivity.
Qed.

Lemma binary_sensor_setup_loop_contents simplisafe l acc :
  (foldl (binary_sensor.setup_system simplisafe) acc l).1
    = acc.1 ++ flat_map (entities_of_system simplisafe) l.
Proof.
  revert acc. induction l as [|s l IH]; intros acc; simpl.
  - rewrite app_nil_r. reflexivity.
  - rewrite IH, binary_sensor_setup_system_appends, <- app_assoc.
    reflexivity.
Qed.

(** X1: the list the sensor setup hands to the host is, system by system
    in order, nothing for a version-2 system and otherwise the entities of
    its sensors followed by those of its cameras: per sensor a triggered
    entity if its type is in the table and then a battery entity if its type
    is supported, per camera a motion entity and then a doorbell entity if
    the camera is a doorbell. *)
Theorem binary_sensor_setup_contents (simplisafe : SimpliSafe) :
  (binary_sensor.async_setup_entry simplisafe).1
    = flat_map (entities_of_system simplisafe) (systems simplisafe).
Proof.
  unfold binary_sensor.async_setup_entry.
  rewrite binary_sensor_setup_loop_contents. reflexivity.
Qed.

Lemma camera_setup_system_appends simplisafe ffmpeg acc system :
  (camera.setup_system simplisafe ffmpeg acc system).1
    = acc.1 ++ cameras_of_system simplisafe ffmpeg system.
Proof.
  destruct acc as [cams lg]. unfold camera.setup_system, cameras_of_system.
  case_decide; simpl.
  - rewrite app_nil_r. reflexivity.
  - generalize (cameras system) as l. intros l. revert cams.
    induction l as [|c l IH]; intros cams; simpl.
    + rewrite app_nil_r. reflexivity.
    + rewrite IH, <- app_assoc. reflexivity.
Qed.

Lemma camera_setup_loop_contents simplisafe ffmpeg l acc :
  (foldl (camera.setup_system simplisafe ffmpeg) acc l).1
    = acc.1 ++ flat_map (cameras_of_system simplisafe ffmpeg) l.
Proof.
  revert acc. induction l as [|s l IH]; intros acc; simpl.
  - rewrite app_nil_r. reflexivity.
  - rewrite IH, camera_setup_system_appends, <- app_assoc. reflexivity.
Qed.

(** X2: the list the camera setup hands to the host holds, system by
    system in order, nothing for a version-2 system and otherwise one
    freshly constructed camera entity per camera of the system, in the
    order of the cameras. *)
Theorem camera_setup_contents (simplisafe : SimpliSafe)
    (ffmpeg : camera.FFmpegManager) :
  (camera.async_setup_entry simplisafe ffmpeg).1
    = flat_map (cameras_of_system simplisafe ffmpeg) (systems simplisafe).
Proof.
  unfold camera.async_setup_entry.
  rewrite camera_setup_loop_contents. reflexivity.
Qed.

(** X3: one sensor adds nothing, a battery entity alone, or a triggered
    entity followed by a battery entity; a triggered entity is never added
    without the battery entity of the same sensor, and what was in the list
    before stays in front. *)
Theorem sensor_adds_triggered_only_with_battery (simplisafe : SimpliSafe)
    (system : System) (acc : list binary_sensor.Entity) (sensor : SensorV3) :
  binary_sensor.add_sensor simplisafe system acc sensor = acc \/
  binary_sensor.add_sensor simplisafe system acc sensor
    = acc ++ [binary_sensor.BatteryBinarySensor simplisafe system sensor] \/
  exists device_class,
    binary_sensor.dict_get binary_sensor.TRIGGERED_SENSOR_TYPES (type sensor)
      = Some device_class /\
    binary_sensor.add_sensor simplisafe system acc sensor
      = acc ++ [binary_sensor.TriggeredBinarySensor simplisafe system sensor
                  device_class;
                binary_sensor.BatteryBinarySensor simplisafe system sensor].
Proof.
  rewrite add_sensor_appends. unfold entities_of_sensor.
  destruct (type sensor) eqn:Htype; simpl;
    rewrite ?app_nil_r; eauto 6.
Qed.

End SetupContents.

Section SetupProvenance.
Import simplipy.

Lemma entities_of_sensor_placed simplisafe system sensor e :
  sensor ∈ sensors system ->
  In e (entities_of_sensor simplisafe system sensor) ->
  entity_simplisafe e = simplisafe /\
  binary_sensor.entity_system e = system /\ well_placed e.
Proof.
  intros Hsensor. unfold entities_of_sensor.
  rewrite in_app_iff.
  destruct (binary_sensor.dict_get _ _) as [device_class|] eqn:Hget;
    case_decide as Hbattery; simpl; intuition (subst; simpl; auto).
Qed.

Lemma entities_of_camera_placed simplisafe system cam e :
  cam ∈ cameras system ->
  In e (entities_of_camera simplisafe system cam) ->
  entity_simplisafe e = simplisafe /\
  binary_sensor.entity_system e = system /\ well_placed e.
Proof.
  intros Hcam. unfold entities_of_camera.
  case_decide as Hdoorbell; simpl; intuition (subst; simpl; auto).
Qed.

(** X4: every entity the sensor setup constructs holds the integration
    object it was set up with, a system of that object, and a device of
    that very system; a triggered entity carries the device class the table
    gives for its sensor type, a battery entity wraps a sensor of a
    supported type, and a doorbell entity wraps a doorbell camera. *)
Theorem sensor_entities_well_placed (simplisafe : SimpliSafe)
    (e : binary_sensor.Entity) :
  e ∈ (binary_sensor.async_setup_entry simplisafe).1 ->
  entity_simplisafe e = simplisafe /\
  binary_sensor.entity_system e ∈ systems simplisafe /\
  well_placed e.
Proof.
  unfold binary_sensor.async_setup_entry.
  rewrite binary_sensor_setup_loop_contents. simpl.
  rewrite list_elem_of_In, in_flat_map.
  intros (system & Hsystem & He). apply list_elem_of_In in Hsystem.
  unfold entities_of_system in He. case_decide; [destruct He|].
  apply in_app_iff in He as [He|He]; apply in_flat_map in He
    as (device & Hdevice & He); apply list_elem_of_In in Hdevice.
  - destruct (entities_of_sensor_placed _ _ _ _ Hdevice He) as (? & ? & ?).
    subst. auto.
  - destruct (entities_of_camera_placed _ _ _ _ Hdevice He) as (? & ? & ?).
    subst. auto.
Qed.

Lemma sensor_entities_well_placed_witness :
  well_placed
    (binary_sensor.CameraDoorbellBinarySensor sample_simplisafe newer_system
       (sample_device true)).
Proof.
  apply (sensor_entities_well_placed sample_simplisafe).
  apply list_elem_of_In. vm_compute. tauto.
Defined.

(** X5: every camera entity the camera setup constructs holds the
    integration object and the FFmpeg handle it was set up with and a camera
    of the system it refers to, which is one of the given systems; it
    starts with an empty image cache and with the online and subscribed flags
    read from the device. *)
Theorem camera_entities_fresh (simplisafe : SimpliSafe)
    (ffmpeg : camera.FFmpegManager) (c : camera.SimpliSafeCamera) :
  c ∈ (camera.async_setup_entry simplisafe ffmpeg).1 ->
  camera._simplisafe c = simplisafe /\
  camera._ffmpeg c = ffmpeg /\
  camera._system c ∈ systems simplisafe /\
  camera._device c ∈ cameras (camera._system c) /\
  camera._last_image c = None /\
  camera.is_on c
    = bool_decide (status (camera._device c) = "online")
      && subscription_enabled (camera._device c).
Proof.
  unfold camera.async_setup_entry.
  rewrite camera_setup_loop_contents. simpl.
  rewrite list_elem_of_In, in_flat_map.
  intros (system & Hsystem & Hc). apply list_elem_of_In in Hsystem.
  unfold cameras_of_system in Hc. case_decide; [destruct Hc|].
  apply list_elem_of_In, list_elem_of_fmap in Hc as (cam & -> & Hcam).
  simpl. auto 7.
Qed.

Lemma camera_entities_fresh_witness :
  camera._last_image
    (camera.__init__ sample_simplisafe newer_system sample_ffmpeg
       (sample_device true)) = None.
Proof.
  apply (camera_entities_fresh sample_simplisafe sample_ffmpeg).
  apply list_elem_of_In. vm_compute. tauto.
Defined.

End SetupProvenance.

(** ** Strings *)

Section Strings.

Lemma string_app_cons x a b : String x a +:+ b = String x (a +:+ b).
Proof. reflexivity. Qed.

Lemma string_app_assoc a b c : (a +:+ b) +:+ c = a +:+ b +:+ c.
Proof.
  induction a as [|x a IH]; [reflexivity|].
  rewrite !string_app_cons, IH. reflexivity.
Qed.

Lemma string_app_length a b :
  String.length (a +:+ b) = (String.length a + String.length b)%nat.
Proof.
  induction a as [|x a IH]; [reflexivity|].
  rewrite string_app_cons. simpl. rewrite IH. reflexivity.
Qed.

Lemma string_app_inv_tail a b c : a +:+ c = b +:+ c -> a = b.
Proof.
  revert b. induction a as [|x a IH]; intros [|y b] Heq.
  - reflexivity.
  - apply (f_equal String.length) in Heq.
    rewrite !string_app_length in Heq. simpl in Heq. lia.
  - apply (f_equal String.length) in Heq.
    rewrite !string_app_length in Heq. simpl in Heq. lia.
  - rewrite !string_app_cons in Heq. injection Heq as -> Heq.
    f_equal. apply IH, Heq.
Qed.

Lemma string_app_neq_self a b : b <> EmptyString -> a +:+ b <> a.
Proof.
  intros Hb Heq. apply (f_equal String.length) in Heq.
  rewrite string_app_length in Heq.
  destruct b; [congruence|]. simpl in Heq. lia.
Qed.

End Strings.

(** ** The camera entity *)

Section CameraFurther.
Import simplipy camera.

(** X6: the REST refresh of a camera entity is idempotent and agrees with
    the constructor (refreshing a fresh entity changes nothing); it keeps
    the image cache, the shutter computation and the stream source; after it
    the entity is on exactly when the device reports the status online and
    an enabled subscription. *)
Theorem camera_refresh_idempotent (this : SimpliSafeCamera) :
  async_update_from_rest_api (async_update_from_rest_api this)
    = async_update_from_rest_api this /\
  (forall simplisafe system ffmpeg cam,
     async_update_from_rest_api (__init__ simplisafe system ffmpeg cam)
       = __init__ simplisafe system ffmpeg cam) /\
  _last_image (async_update_from_rest_api this) = _last_image this /\
  (forall members,
     is_shutter_open members (async_update_from_rest_api this)
       = is_shutter_open members this) /\
  stream_source (async_update_from_rest_api this) = stream_source this /\
  (is_on (async_update_from_rest_api this) = true <->
     status (_device this) = "online" /\
     subscription_enabled (_device this) = true).
Proof.
  repeat split; try reflexivity.
  - unfold is_on, async_update_from_rest_api in H. simpl in H.
    apply andb_true_iff in H as [H _]. apply bool_decide_eq_true in H.
    exact H.
  - unfold is_on, async_update_from_rest_api in H. simpl in H.
    apply andb_true_iff in H as [_ H]. exact H.
  - intros [Hstatus Hsub]. unfold is_on, async_update_from_rest_api. simpl.
    rewrite Hsub, bool_decide_eq_true_2 by exact Hstatus. reflexivity.
Qed.

Lemma camera_refresh_idempotent_witness :
  is_on (async_update_from_rest_api
           (sample_camera SystemStates.OFF false None)) = true.
Proof.
  apply (proj2 (proj2 (proj2 (proj2 (proj2 (camera_refresh_idempotent
           (sample_camera SystemStates.OFF false None))))))).
  split; reflexivity.
Defined.

(** X9: in the module as written every call of the still-image method
    raises [AttributeError] at the shutter computation and leaves the store
    as it was: no frame is grabbed and nothing is cached or logged, whatever
    the system state, the device flags and the cache.  And whatever the
    names after [SystemStates.] resolve to, one call changes nothing of the
    entity but possibly the cached image, writes no log record, calls the
    frame-grab utility once if the shutter computation returns open and
    not at all otherwise, and changes the cached image only to an image that
    this very call grabbed and returned. *)
Theorem still_image_touches_only_the_cache (io : Outcomes) (s : Store) :
  async_device_image SystemStates.__members__ io s
    = (Raise (AttributeError "off"), s) /\
  forall members,
    _simplisafe (self (async_device_image members io s).2)
      = _simplisafe (self s) /\
    _system (self (async_device_image members io s).2) = _system (self s) /\
    _device (self (async_device_image members io s).2) = _device (self s) /\
    _ffmpeg (self (async_device_image members io s).2) = _ffmpeg (self s) /\
    is_on (self (async_device_image members io s).2) = is_on (self s) /\
    log (async_device_image members io s).2 = log s /\
    frame_grabs (async_device_image members io s).2
      = (frame_grabs s
         + match is_shutter_open members (self s) with
           | Return true => 1
           | _ => 0
           end)%nat /\
    (_last_image (self (async_device_image members io s).2)
       = _last_image (self s) \/
     is_shutter_open members (self s) = Return true /\
     get_image_outcome io
       = Return (_last_image (self (async_device_image members io s).2)) /\
     (async_device_image members io s).1
       = Return (_last_image (self (async_device_image members io s).2))).
Proof.
  split; [reflexivity|]. intros members.
  unfold async_device_image, lift, await, set_last_image, frame_grabs. run_M.
  destruct (is_shutter_open members (self s)) as [[]|e] eqn:Hopen; simpl.
  - destruct (get_image_outcome io) as [image|e] eqn:Himage; simpl;
      rewrite List.filter_app, length_app; simpl; repeat split; auto.
  - rewrite Nat.add_0_r. repeat split; auto.
  - rewrite Nat.add_0_r. repeat split; auto.
Qed.

End CameraFurther.

(** ** The MJPEG stream *)

Section StreamFurther.
Import simplipy camera.

Lemma stream_run_when_opened io s opened :
  open_camera_outcome io = Return opened ->
  handle_async_mjpeg_stream io s =
    (outcome_after_open io,
     {| self := self s;
        calls := calls s
                   ++ open_camera (binary (_ffmpeg (self s)))
                        (stream_input (self s))
                   :: calls_after_open io (self s);
        log := log s ++ [const.warn (stream_input (self s))] |}).
Proof.
  intros Hopened.
  unfold handle_async_mjpeg_stream, await, LOGGER_warn, outcome_after_open,
    calls_after_open. run_M. rewrite Hopened. simpl.
  destruct (get_reader_outcome io) as [reader|e1]; simpl;
    [destruct (proxy_outcome io) as [response|e2]; simpl|];
    destruct (close_outcome io) as [[]|e3]; simpl;
    rewrite <- ?app_assoc; reflexivity.
Qed.

(** X10: once the stream is open, the method returns the proxy's response
    only if [get_reader], the proxy and [close] all return; an exception of
    [close] is what the method raises even when the proxy had returned a
    response or the body had raised another exception; otherwise the first
    exception of [get_reader] or the proxy is raised. *)
Theorem stream_outcome_after_open (io : Outcomes) (s : Store)
    (opened : bool) :
  open_camera_outcome io = Return opened ->
  (handle_async_mjpeg_stream io s).1 = outcome_after_open io /\
  (forall e, close_outcome io = Raise e ->
     (handle_async_mjpeg_stream io s).1 = Raise e) /\
  (forall response,
     (handle_async_mjpeg_stream io s).1 = Return (Some response) <->
     (exists reader, get_reader_outcome io = Return reader) /\
     proxy_outcome io = Return response /\
     close_outcome io = Return tt).
Proof.
  intros Hopened. rewrite (stream_run_when_opened io s opened Hopened).
  simpl. unfold outcome_after_open.
  split; [reflexivity|]. split.
  - intros e ->. reflexivity.
  - intros response.
    destruct (close_outcome io) as [[]|e3];
      destruct (get_reader_outcome io) as [reader|e1];
      destruct (proxy_outcome io) as [response'|e2]; split;
      try (intros [[reader' Hreader] [Hproxy Hclose]]); try intros H;
      try congruence; eauto.
    injection H as ->. eauto.
Qed.

Lemma stream_outcome_after_open_witness :
  (handle_async_mjpeg_stream io_ok
     (sample_store SystemStates.OFF false None)).1
    = Return (Some "response") /\
  (handle_async_mjpeg_stream io_proxy_cancelled
     (sample_store SystemStates.OFF false None)).1
    = Raise CancelledError.
Proof.
  split.
  - rewrite (proj1 (stream_outcome_after_open io_ok
               (sample_store SystemStates.OFF false None) true eq_refl)).
    reflexivity.
  - rewrite (proj1 (stream_outcome_after_open io_proxy_cancelled
               (sample_store SystemStates.OFF false None) true eq_refl)).
    reflexivity.
Defined.

(** X11: whether the shutter is computed open or closed, the stream method
    opens the camera, with the FFmpeg binary and the authenticated stream
    source; once that has returned it asks for the reader, starts the proxy
    only if the reader was obtained, and closes the stream last.  The
    entity, its image cache included, is left as it was. *)
Theorem stream_call_sequence (io : Outcomes) (s : Store) (opened : bool) :
  open_camera_outcome io = Return opened ->
  calls (handle_async_mjpeg_stream io s).2
    = calls s
        ++ open_camera (binary (_ffmpeg (self s))) (stream_input (self s))
        :: calls_after_open io (self s) /\
  self (handle_async_mjpeg_stream io s).2 = self s /\
  stream_source (self s) = Some (stream_input (self s)).
Proof.
  intros Hopened. rewrite (stream_run_when_opened io s opened Hopened).
  auto.
Qed.

Lemma stream_call_sequence_witness :
  calls (handle_async_mjpeg_stream io_ok
           (sample_store SystemStates.OFF false old_frame)).2
    = [ open_camera "ffmpeg"
          (stream_input (sample_camera SystemStates.OFF false old_frame));
        get_reader;
        async_aiohttp_proxy_stream 0
          "multipart/x-mixed-replace;boundary=ffserver";
        close ].
Proof.
  rewrite (proj1 (stream_call_sequence io_ok
             (sample_store SystemStates.OFF false old_frame) true eq_refl)).
  reflexivity.
Defined.

(** X12: every call of the stream method, also one whose opening fails,
    writes exactly one warning to the log, and its text contains the
    account's access token and the video URL in the clear; the
    still-image method writes nothing to the log. *)
Theorem stream_logs_access_token (io : Outcomes) (s : Store) :
  log (handle_async_mjpeg_stream io s).2
    = log s ++ [const.warn (stream_input (self s))] /\
  (exists before after,
     stream_input (self s)
       = before +:+ access_token (_simplisafe (self s)) +:+ after) /\
  (exists before after,
     stream_input (self s)
       = before +:+ video_url (_device (self s)) +:+ after) /\
  (forall members, log (async_device_image members io s).2 = log s).
Proof.
  split; [|split; [|split]].
  - unfold handle_async_mjpeg_stream, await, LOGGER_warn. run_M.
    destruct (open_camera_outcome io) as [opened|e]; simpl; [|reflexivity].
    destruct (get_reader_outcome io) as [reader|e1]; simpl;
      [destruct (proxy_outcome io) as [response|e2]; simpl|];
      destruct (close_outcome io) as [[]|e3]; reflexivity.
  - exists ("-re -headers " +:+ dquote +:+ "Authorization: Bearer "),
      (dquote +:+ " -i " +:+ dquote +:+ video_url (_device (self s))
         +:+ dquote).
    unfold stream_input, auth_headers.
    rewrite !string_app_assoc. reflexivity.
  - exists ("-re " +:+ auth_headers (self s) +:+ " -i " +:+ dquote), dquote.
    unfold stream_input. rewrite !string_app_assoc. reflexivity.
  - intros members. unfold async_device_image, lift, await, set_last_image.
    run_M.
    destruct (is_shutter_open members (self s)) as [[]|e]; simpl;
      [|reflexivity..].
    destruct (get_image_outcome io); reflexivity.
Qed.

End StreamFurther.

(** ** Unique ids *)

Section UniqueIds.

(** X13: for one base id, the ids of the battery, doorbell, motion and
    camera entities are pairwise different and differ from the base id
    itself, which a triggered entity keeps; and within each class two
    entities get the same id only if their base ids are the same. *)
Theorem unique_ids_distinct (u u' : string) :
  NoDup [ u;
          binary_sensor.BatteryBinarySensor._attr_unique_id u;
          binary_sensor.CameraDoorbellBinarySensor._attr_unique_id u;
          binary_sensor.CameraMotionBinarySensor._attr_unique_id u;
          camera._attr_unique_id u ] /\
  (binary_sensor.BatteryBinarySensor._attr_unique_id u
     = binary_sensor.BatteryBinarySensor._attr_unique_id u' -> u = u') /\
  (binary_sensor.CameraDoorbellBinarySensor._attr_unique_id u
     = binary_sensor.CameraDoorbellBinarySensor._attr_unique_id u' ->
   u = u') /\
  (binary_sensor.CameraMotionBinarySensor._attr_unique_id u
     = binary_sensor.CameraMotionBinarySensor._attr_unique_id u' ->
   u = u') /\
  (camera._attr_unique_id u = camera._attr_unique_id u' -> u = u').
Proof.
  unfold binary_sensor.BatteryBinarySensor._attr_unique_id,
    binary_sensor.CameraDoorbellBinarySensor._attr_unique_id,
    binary_sensor.CameraMotionBinarySensor._attr_unique_id,
    camera._attr_unique_id.
  split; [|repeat split; apply string_app_inv_tail].
  repeat (apply NoDup_cons; split); [..|apply NoDup_nil_2];
    rewrite ?not_elem_of_cons; repeat split; try apply not_elem_of_nil;
    try (intros Heq; symmetry in Heq; revert Heq;
         apply string_app_neq_self; discriminate);
    intros Heq; apply String.app_inj in Heq; discriminate.
Qed.

Lemma unique_ids_distinct_witness :
  NoDup [ "0a1b2c"; "0a1b2c-battery"; "0a1b2c-doorbell"; "0a1b2c-motion";
          "0a1b2c-camera" ] /\
  "0a1b2c" = "0a1b2c".
Proof.
  split.
  - exact (proj1 (unique_ids_distinct "0a1b2c" "0a1b2c")).
  - apply (proj1 (proj2 (unique_ids_distinct "0a1b2c" "0a1b2c"))).
    reflexivity.
Defined.

End UniqueIds.

(** ** The passthrough sensors *)

Section Passthrough.
Import simplipy binary_sensor.

Lemma triggered_polls_keep_attr tr self :
  Forall is_poll tr ->
  TriggeredBinarySensor._attr_is_on (TriggeredBinarySensor.run tr self)
    = TriggeredBinarySensor._attr_is_on self.
Proof.
  intros Hpolls. revert self.
  induction Hpolls as [|[device|] tr Hpoll _ IH]; intros self.
  - reflexivity.
  - change (TriggeredBinarySensor.run (Poll device :: tr) self)
      with (TriggeredBinarySensor.run tr (TriggeredBinarySensor.step self (Poll device))).
    rewrite IH. reflexivity.
  - destruct Hpoll.
Qed.

Lemma battery_polls_keep_attr tr self :
  Forall is_poll tr ->
  BatteryBinarySensor._attr_is_on (BatteryBinarySensor.run tr self)
    = BatteryBinarySensor._attr_is_on self.
Proof.
  intros Hpolls. revert self.
  induction Hpolls as [|[device|] tr Hpoll _ IH]; intros self.
  - reflexivity.
  - change (BatteryBinarySensor.run (Poll device :: tr) self)
      with (BatteryBinarySensor.run tr (BatteryBinarySensor.step self (Poll device))).
    rewrite IH. reflexivity.
  - destruct Hpoll.
Qed.

(** X14: a triggered or battery sensor shows the device's [triggered] or
    [low_battery] value as it was at the last REST refresh: polls of the
    device that come after that refresh do not show until the next one,
    and before the first refresh the attribute is what it was. *)
Theorem passthrough_shows_last_refresh (pre post : list DeviceAction) :
  Forall is_poll post ->
  (forall self,
     TriggeredBinarySensor._attr_is_on
       (TriggeredBinarySensor.run (pre ++ Refresh :: post) self)
       = Some (triggered (TriggeredBinarySensor._device
                            (TriggeredBinarySensor.run pre self))) /\
     TriggeredBinarySensor._attr_is_on (TriggeredBinarySensor.run post self)
       = TriggeredBinarySensor._attr_is_on self) /\
  (forall self,
     BatteryBinarySensor._attr_is_on
       (BatteryBinarySensor.run (pre ++ Refresh :: post) self)
       = Some (low_battery (BatteryBinarySensor._device
                              (BatteryBinarySensor.run pre self))) /\
     BatteryBinarySensor._attr_is_on (BatteryBinarySensor.run post self)
       = BatteryBinarySensor._attr_is_on self).
Proof.
  intros Hpolls. split; intros self; split.
  - unfold TriggeredBinarySensor.run. rewrite foldl_app. simpl.
    exact (triggered_polls_keep_attr post
             (TriggeredBinarySensor.async_update_from_rest_api _) Hpolls).
  - apply triggered_polls_keep_attr, Hpolls.
  - unfold BatteryBinarySensor.run. rewrite foldl_app. simpl.
    exact (battery_polls_keep_attr post
             (BatteryBinarySensor.async_update_from_rest_api _) Hpolls).
  - apply battery_polls_keep_attr, Hpolls.
Qed.

Lemma passthrough_shows_last_refresh_witness :
  TriggeredBinarySensor._attr_is_on
    (TriggeredBinarySensor.run
       ([Poll entry_sensor_open_low] ++ Refresh :: [Poll entry_sensor])
       sample_triggered_sensor) = Some true /\
  BatteryBinarySensor._attr_is_on
    (BatteryBinarySensor.run
       ([Poll entry_sensor_open_low] ++ Refresh :: [Poll entry_sensor])
       sample_battery_sensor) = Some true.
Proof.
  assert (Forall is_poll [Poll entry_sensor]) as Hpolls
    by (repeat constructor).
  split.
  - apply (proj1 (proj1 (passthrough_shows_last_refresh
             [Poll entry_sensor_open_low] [Poll entry_sensor] Hpolls)
             sample_triggered_sensor)).
  - apply (proj1 (proj2 (passthrough_shows_last_refresh
             [Poll entry_sensor_open_low] [Poll entry_sensor] Hpolls)
             sample_battery_sensor)).
Defined.

End Passthrough.

(** ** The transient sensors, further *)

Section TransientFurther.
Import simplipy binary_sensor.


(** X15: in the module as written, a run of the loop from a store with
    nothing pending has a closed form: the flag is up as soon as any push
    event was delivered, of whatever type, and stays up; nothing is ever
    scheduled or published; each event is logged once, at critical level, in
    order; the clock adds up the time let pass. *)
Theorem as_written_run_closed_form (cls : TransientClass)
    (tr : list Action) (w : World) :
  timers w = [] ->
  run module_globals cls tr w =
    {| _attr_is_on :=
         match events_of tr with [] => _attr_is_on w | _ :: _ => true end;
       clock := clock w + elapsed tr;
       timers := [];
       written := written w;
       log := log w ++ (const.critical <$> events_of tr) |}.
Proof.
  revert w. induction tr as [|a tr IH]; intros w Hnone.
  - destruct w; simpl in *. subst.
    rewrite Z.add_0_r, app_nil_r. reflexivity.
  - change (run module_globals cls (a :: tr) w)
      with (run module_globals cls tr (step module_globals cls a w)).
    rewrite IH by (apply step_as_written_no_timers, Hnone).
    destruct a as [event| |d|i]; simpl.
    + rewrite handler_as_written. simpl.
      rewrite <- app_assoc. f_equal. destruct (events_of tr); reflexivity.
    + rewrite rest_refresh_is_noop. reflexivity.
    + rewrite Z.add_assoc. reflexivity.
    + rewrite Hnone. reflexivity.
Qed.

Lemma as_written_run_closed_form_witness :
  run module_globals DoorbellSensor
    [Advance 3; PushEvent motion_event; Fire 0; RestRefresh; Advance 4]
    (initial 100) =
  {| _attr_is_on := true; clock := 107; timers := []; written := [];
     log := [const.critical motion_event] |}.
Proof.
  apply (as_written_run_closed_form DoorbellSensor
           [Advance 3; PushEvent motion_event; Fire 0; RestRefresh; Advance 4]
           (initial 100)).
  reflexivity.
Defined.







End TransientFurther.
